(** * FaceWorks internal.h: allocator indirection and scoped profiler

    A shallow embedding of [src/internal.h]:
    - [FaceWorks_Malloc], [FaceWorks_Free] and the STL adapter
      [FaceWorks_Allocator<T>] (module [Alloc]);
    - the scoped timer [FaceWorks_Profiler] (module [Profiler]).

    Calls that leave the translation unit (the caller's hooks, the global
    [operator new]/[operator delete], the Win32 performance counter,
    [BlobPrintf], [ProfilerPushTime]) are recorded as events of a trace, and
    their results are read from an explicit environment record. *)

From Stdlib Require Import ZArith Lia Ascii.
From stdpp Require Import base list strings.

Local Open Scope Z_scope.

(** ** Machine integers *)

(** [size_t] on the Win64 target of the header: 64 bits, unsigned. *)
Definition size_t_modulus : Z := 2 ^ 64.
Definition wrap_size_t (z : Z) : Z := z mod size_t_modulus.

(** [LONGLONG] ([LARGE_INTEGER::QuadPart]): 64 bits, two's complement. *)
Definition wrap_i64 (z : Z) : Z := (z + 2 ^ 63) mod 2 ^ 64 - 2 ^ 63.

(** Data and function pointers are addresses; the null pointer is 0. *)
Definition ptr : Type := Z.
Definition fnptr : Type := Z.
Definition nullptr : Z := 0.

(** C truthiness of a pointer: [if (p)]. *)
Definition is_set (p : Z) : bool := negb (p =? nullptr).

(* ===================================================================== *)
(** ** Memory allocation helpers and the STL allocator *)
(* ===================================================================== *)

Module Alloc.

(** Modelled from the spec: the struct [gfsdk_new_delete_t] is declared in
    [GFSDK_FaceWorks.h], which is not part of the sources at hand.  The spec
    describes it as a pair of function references, allocate and deallocate,
    each optionally absent; the header reads its fields [new_] and [delete_]
    and tests them for null. *)
Record gfsdk_new_delete_t : Type := mk_new_delete {
  new_ : fnptr;
  delete_ : fnptr
}.

(** C++ exceptions that can leave an allocation call. *)
Inductive exn : Type :=
| bad_alloc
| foreign_exn (tag : Z).

Inductive outcome (A : Type) : Type :=
| Returned (a : A)
| Threw (e : exn).
Arguments Returned {A} a.
Arguments Threw {A} e.

(** The collaborators of the allocation layer.  A hook is called through its
    address; nothing is assumed about what it returns or whether it throws.
    The global [operator new] is likewise left arbitrary. *)
Record Platform : Type := mk_platform {
  call_new : fnptr -> Z -> outcome ptr;
  call_delete : fnptr -> ptr -> outcome unit;
  operator_new : Z -> outcome ptr
}.

Inductive Event : Type :=
| EvHookNew (f : fnptr) (bytes : Z)
| EvOperatorNew (bytes : Z)
| EvHookDelete (f : fnptr) (p : ptr)
| EvOperatorDelete (p : ptr).

(** Computations that log the external calls they make and end by returning
    or by throwing. *)
Definition M (A : Type) : Type := list Event * outcome A.

#[global] Instance M_ret : MRet M := fun A a => ([], Returned a).
#[global] Instance M_bind : MBind M := fun A B k m =>
  match m with
  | (t, Returned a) => let '(t', r) := k a in (t ++ t', r)
  | (t, Threw e) => (t, Threw e)
  end.
Definition throw {A} (e : exn) : M A := ([], Threw e).
Definition extern {A} (e : Event) (r : outcome A) : M A := ([e], r).

Definition result {A} (m : M A) : outcome A := snd m.

Section WithPlatform.
Variable P : Platform.

(** [inline void * FaceWorks_Malloc(size_t bytes, const gfsdk_new_delete_t &)] *)
Definition FaceWorks_Malloc (bytes : Z) (allocator : gfsdk_new_delete_t) : M ptr :=
  if is_set (new_ allocator)
  then extern (EvHookNew (new_ allocator) bytes) (call_new P (new_ allocator) bytes)
  else extern (EvOperatorNew bytes) (operator_new P bytes).

(** [inline void FaceWorks_Free(void * p, const gfsdk_new_delete_t &)] *)
Definition FaceWorks_Free (p : ptr) (allocator : gfsdk_new_delete_t) : M unit :=
  if negb (is_set p) then mret tt
  else if is_set (delete_ allocator)
  then extern (EvHookDelete (delete_ allocator) p) (call_delete P (delete_ allocator) p)
  else extern (EvOperatorDelete p) (Returned tt).
End WithPlatform.

(** An element type, as far as the allocator looks at it: [sizeof(T)]. *)
Record ctype : Type := mk_ctype { sizeof : Z }.

(** [template <typename T> class FaceWorks_Allocator]: the only data member
    is the hook pair. *)
Record FaceWorks_Allocator (T : ctype) : Type := mk_allocator {
  m_allocator : gfsdk_new_delete_t
}.
Arguments mk_allocator T _ : clear implicits.
Arguments m_allocator {T} _.

(** [explicit FaceWorks_Allocator(gfsdk_new_delete_t * pAllocator)] *)
Definition FaceWorks_Allocator_ctor (T : ctype)
    (pAllocator : option gfsdk_new_delete_t) : FaceWorks_Allocator T :=
  match pAllocator with
  | Some a => mk_allocator T {| new_ := new_ a; delete_ := delete_ a |}
  | None => mk_allocator T {| new_ := nullptr; delete_ := nullptr |}
  end.

(** [template <typename T1> FaceWorks_Allocator(FaceWorks_Allocator<T1> const & other)]:
    builds a [FaceWorks_Allocator<T>] from an allocator of another element type. *)
Definition FaceWorks_Allocator_rebind {T1 : ctype} (T : ctype)
    (other : FaceWorks_Allocator T1) : FaceWorks_Allocator T :=
  mk_allocator T (m_allocator other).

Section Members.
Variable P : Platform.
Context {T : ctype}.

(** [pointer allocate(size_type n, const void * hint = nullptr)] *)
Definition allocate (a : FaceWorks_Allocator T) (n : Z) (hint : ptr) : M ptr :=
  p ← FaceWorks_Malloc P (wrap_size_t (n * sizeof T)) (m_allocator a);
  if negb (is_set p) then throw bad_alloc else mret p.

(** [void deallocate(pointer p, size_type n)] *)
Definition deallocate (a : FaceWorks_Allocator T) (p : ptr) (n : Z) : M unit :=
  FaceWorks_Free P p (m_allocator a).
End Members.

End Alloc.

(* ===================================================================== *)
(** ** The scoped profiler *)
(* ===================================================================== *)

Module Profiler.

Definition NUL : ascii := "000"%char.

(** A [const char *] argument is given by the bytes found at its address.
    The C string ends before the first NUL byte, or at the end of the list,
    where the terminator is implied. *)
Fixpoint strlen_nat (s : list ascii) : nat :=
  match s with
  | [] => 0%nat
  | c :: s' => if decide (c = NUL) then 0%nat else S (strlen_nat s')
  end.

(** [strlen], as a [size_t]. *)
Definition strlen (s : list ascii) : Z := Z.of_nat (strlen_nat s).

(** The text that [%s] and [ProfilerPushTime] read from a [char] array. *)
Definition c_str (s : list ascii) : list ascii := take (strlen_nat s) s.

(** [a[i] = c] on a fixed-size array.  [None] is a write outside the array. *)
Definition store (a : list ascii) (i : Z) (c : ascii) : option (list ascii) :=
  if decide (0 <= i < Z.of_nat (length a))
  then Some (<[Z.to_nat i := c]> a)
  else None.

(** Byte-by-byte copy of [src] into [a] from index [off] on. *)
Fixpoint copy_bytes (a : list ascii) (off : nat) (src : list ascii) : list ascii :=
  match src with
  | [] => a
  | c :: src' => copy_bytes (<[off := c]> a) (S off) src'
  end.

(** [memcpy_s(&a[off], destsz, src, count)].  A zero [count] does nothing.
    [None] covers the runtime-constraint violation [count > destsz] and any
    access outside the destination array or the source bytes. *)
Definition memcpy_s (a : list ascii) (off destsz : Z) (src : list ascii) (count : Z)
    : option (list ascii) :=
  if decide (count = 0) then Some a
  else if decide (0 <= count <= destsz
                  /\ 0 <= off /\ off + count <= Z.of_nat (length a)
                  /\ count <= Z.of_nat (length src))
  then Some (copy_bytes a (Z.to_nat off) (take (Z.to_nat count) src))
  else None.

(** [LARGE_INTEGER] fields hold their [QuadPart]. *)
Record FaceWorks_Profiler : Type := mk_profiler {
  m_begin : Z;
  m_end : Z;
  m_freq : Z;
  m_info_str : list ascii;
  m_did_start : bool;
  m_is_dummy : bool;
  pErrorBlobOut : ptr
}.

Definition set_m_begin (v : Z) (p : FaceWorks_Profiler) : FaceWorks_Profiler :=
  mk_profiler v (m_end p) (m_freq p) (m_info_str p) (m_did_start p) (m_is_dummy p)
              (pErrorBlobOut p).
Definition set_m_end (v : Z) (p : FaceWorks_Profiler) : FaceWorks_Profiler :=
  mk_profiler (m_begin p) v (m_freq p) (m_info_str p) (m_did_start p) (m_is_dummy p)
              (pErrorBlobOut p).
Definition set_m_freq (v : Z) (p : FaceWorks_Profiler) : FaceWorks_Profiler :=
  mk_profiler (m_begin p) (m_end p) v (m_info_str p) (m_did_start p) (m_is_dummy p)
              (pErrorBlobOut p).
Definition set_m_info_str (v : list ascii) (p : FaceWorks_Profiler) : FaceWorks_Profiler :=
  mk_profiler (m_begin p) (m_end p) (m_freq p) v (m_did_start p) (m_is_dummy p)
              (pErrorBlobOut p).
Definition set_m_did_start (v : bool) (p : FaceWorks_Profiler) : FaceWorks_Profiler :=
  mk_profiler (m_begin p) (m_end p) (m_freq p) (m_info_str p) v (m_is_dummy p)
              (pErrorBlobOut p).
Definition set_m_is_dummy (v : bool) (p : FaceWorks_Profiler) : FaceWorks_Profiler :=
  mk_profiler (m_begin p) (m_end p) (m_freq p) (m_info_str p) (m_did_start p) v
              (pErrorBlobOut p).

(** The [LARGE_INTEGER &] handed to [try_query_and_report_err]. *)
Inductive field : Type := F_begin | F_end.

Definition set_field (which : field) (v : Z) (p : FaceWorks_Profiler) : FaceWorks_Profiler :=
  match which with
  | F_begin => set_m_begin v p
  | F_end => set_m_end v p
  end.

(** Result of a Win32 query: the value written on success, or the code
    that [GetLastError] gives after a failure.  A failed query is taken to
    leave its out-parameter as it was. *)
Inductive qresult : Type :=
| QOk (value : Z)
| QFail (last_error : Z).

(** The operating system as the profiler sees it: the answer to the
    frequency query, and the answer to the k-th counter query. *)
Record OS : Type := mk_os {
  qpf : qresult;
  qpc : nat -> qresult
}.

(** Calls that leave the struct.  [EvBlobPrintf] stands for
    [ErrPrintf("[%s] QueryPerformanceCounter failed with error %lu\n", ...)]
    with its two arguments.  [EvProfilerPushTime] carries the label and, in
    place of the [double] seconds, the two integers the seconds are computed
    from: the tick difference and the frequency. *)
Inductive Event : Type :=
| EvQueryPerformanceFrequency (r : qresult)
| EvQueryPerformanceCounter (which : field) (r : qresult)
| EvBlobPrintf (pBlob : ptr) (info : list ascii) (err : Z)
| EvProfilerPushTime (info : list ascii) (diff freq : Z).

Record World : Type := mk_world {
  queries : nat;
  trace : list Event
}.

Definition init_world : World := mk_world 0 [].

Definition St (A : Type) : Type := World -> A * World.

#[global] Instance St_ret : MRet St := fun A a w => (a, w).
#[global] Instance St_bind : MBind St := fun A B k m w =>
  let '(a, w') := m w in k a w'.

Definition emit (e : Event) : St unit :=
  fun w => (tt, mk_world (queries w) (trace w ++ [e])).

Definition prefix : list ascii := String.list_ascii_of_string "FaceWorks_Profiler: ".

Definition info_str_size : nat := 264.

(** Lines 187-207 of the constructor: the label is written into the zeroed
    [m_info_str].  All sizes are [size_t]. *)
Definition build_label (info : list ascii) (name fun_ : list ascii) : option (list ascii) :=
  let prefixLen := strlen prefix in
  info ← memcpy_s info 0 prefixLen prefix prefixLen;
  let name_sz := strlen name in
  let name_sz := Z.min (strlen name) 64 in
  info ← memcpy_s info prefixLen name_sz name name_sz;
  let name_sz := wrap_size_t (name_sz + prefixLen) in
  info ← store info name_sz "|"%char;
  let name_sz := wrap_size_t (name_sz + 1) in
  let fun_sz := Z.min (strlen fun_) 64 in
  let len := Z.min (wrap_size_t (256 - name_sz)) fun_sz in
  memcpy_s info name_sz len fun_ len.

(** The member calls a client can make between construction and the end of
    the scope. *)
Inductive call : Type := Start | Stop.

Section WithOS.
Variable os : OS.

Definition QueryPerformanceFrequency : St qresult :=
  fun w => (qpf os, mk_world (queries w) (trace w ++ [EvQueryPerformanceFrequency (qpf os)])).

Definition QueryPerformanceCounter (which : field) : St qresult :=
  fun w =>
    let r := qpc os (queries w) in
    (r, mk_world (S (queries w)) (trace w ++ [EvQueryPerformanceCounter which r])).

(** [explicit FaceWorks_Profiler(const char * name, const char * fun,
    GFSDK_FaceWorks_ErrorBlob * pBlob)].  An absent string is a null
    pointer.  [None] is an out-of-bounds write while the label is built. *)
Definition FaceWorks_Profiler_ctor (name fun_ : option (list ascii)) (pBlob : ptr)
    : World -> option (FaceWorks_Profiler * World) :=
  fun w =>
    let p := mk_profiler 0 0 0 (replicate info_str_size NUL) false false pBlob in
    match name, fun_ with
    | Some name, Some fun_ =>
        info ← build_label (m_info_str p) name fun_;
        let p := set_m_info_str info p in
        Some ((r ← QueryPerformanceFrequency;
               match r with
               | QOk f => mret (set_m_freq f p)
               | QFail err =>
                   if is_set (pErrorBlobOut p)
                   then _ ← emit (EvBlobPrintf (pErrorBlobOut p) (c_str (m_info_str p)) err);
                        mret p
                   else mret p
               end) w)
    | _, _ => Some (set_m_is_dummy true p, w)
    end.

(** [void try_query_and_report_err(LARGE_INTEGER & which)] *)
Definition try_query_and_report_err (which : field) (p : FaceWorks_Profiler)
    : St FaceWorks_Profiler :=
  r ← QueryPerformanceCounter which;
  match r with
  | QOk t => mret (set_field which t p)
  | QFail err =>
      if is_set (pErrorBlobOut p)
      then _ ← emit (EvBlobPrintf (pErrorBlobOut p) (c_str (m_info_str p)) err);
           mret p
      else mret p
  end.

(** [void start(void)] *)
Definition start (p : FaceWorks_Profiler) : St FaceWorks_Profiler :=
  if negb (m_did_start p) && negb (m_is_dummy p)
  then p ← try_query_and_report_err F_begin p;
       mret (set_m_did_start true p)
  else mret p.

(** [void stop(void)] *)
Definition stop (p : FaceWorks_Profiler) : St FaceWorks_Profiler :=
  if m_did_start p && negb (m_is_dummy p)
  then try_query_and_report_err F_end p
  else mret p.

(** [~FaceWorks_Profiler(void)] *)
Definition FaceWorks_Profiler_dtor (p : FaceWorks_Profiler) : St unit :=
  if m_did_start p
  then p ← stop p;
       let diff := wrap_i64 (m_end p - m_begin p) in
       emit (EvProfilerPushTime (c_str (m_info_str p)) diff (m_freq p))
  else mret tt.

Definition do_call (c : call) (p : FaceWorks_Profiler) : St FaceWorks_Profiler :=
  match c with
  | Start => start p
  | Stop => stop p
  end.

Fixpoint do_calls (cs : list call) (p : FaceWorks_Profiler) : St FaceWorks_Profiler :=
  match cs with
  | [] => mret p
  | c :: cs' => p ← do_call c p; do_calls cs' p
  end.

(** A whole instance: construction, the calls made in the scope, and the
    destructor at scope exit.  The result is everything the instance did
    to the outside. *)
Definition lifetime (name fun_ : option (list ascii)) (pBlob : ptr) (cs : list call)
    : option (list Event) :=
  '(p, w) ← FaceWorks_Profiler_ctor name fun_ pBlob init_world;
  Some (trace (snd ((p ← do_calls cs p; FaceWorks_Profiler_dtor p) w))).

(** The same without the destructor: what has happened by the time the
    calls of the scope are done. *)
Definition scope_trace (name fun_ : option (list ascii)) (pBlob : ptr) (cs : list call)
    : option (list Event) :=
  '(p, w) ← FaceWorks_Profiler_ctor name fun_ pBlob init_world;
  Some (trace (snd (do_calls cs p w))).

(** The label a constructed instance carries, read as a C string. *)
Definition ctor_label (name fun_ : option (list ascii)) (pBlob : ptr)
    : option (list ascii) :=
  '(p, _) ← FaceWorks_Profiler_ctor name fun_ pBlob init_world;
  Some (c_str (m_info_str p)).
End WithOS.

(** *** Observations on traces *)

Definition is_push (e : Event) : bool :=
  match e with EvProfilerPushTime _ _ _ => true | _ => false end.

Definition is_diag (e : Event) : bool :=
  match e with EvBlobPrintf _ _ _ => true | _ => false end.

(** A timestamp capture: any counter query. *)
Definition is_capture (e : Event) : bool :=
  match e with EvQueryPerformanceCounter _ _ => true | _ => false end.

(** The capture of the end timestamp, successful or not. *)
Definition is_end_capture (e : Event) : bool :=
  match e with EvQueryPerformanceCounter F_end _ => true | _ => false end.

Definition is_failed_capture (e : Event) : bool :=
  match e with EvQueryPerformanceCounter _ (QFail _) => true | _ => false end.

Fixpoint count_events (f : Event -> bool) (t : list Event) : nat :=
  match t with
  | [] => 0%nat
  | e :: t' => ((if f e then 1 else 0) + count_events f t')%nat
  end.

(** The [stop()] calls that come after the first [start()] of a call
    sequence. *)
Fixpoint count_stops (cs : list call) : nat :=
  match cs with
  | [] => 0%nat
  | Start :: cs' => count_stops cs'
  | Stop :: cs' => S (count_stops cs')
  end.

Fixpoint stops_after_start (cs : list call) : nat :=
  match cs with
  | [] => 0%nat
  | Start :: cs' => count_stops cs'
  | Stop :: cs' => stops_after_start cs'
  end.

Definition has_start (cs : list call) : bool :=
  existsb (fun c => match c with Start => true | Stop => false end) cs.

(** The label as the specification words it: the prefix, the name cut at
    64 bytes, the separator, and the context cut only by what is left of
    the 256-byte cap. *)
Definition spec_label (name fun_ : list ascii) : list ascii :=
  let name64 := take 64 (c_str name) in
  let budget := (256 - (length prefix + length name64 + 1))%nat in
  prefix ++ name64 ++ ["|"%char] ++ take budget (c_str fun_).

(** The array that the constructor is shown to leave behind: the written
    text, then the untouched zeros of the initial [memset]. *)
Definition built (name fun_ : list ascii) : list ascii :=
  (prefix ++ take 64 (c_str name) ++ ["|"%char] ++ take 64 (c_str fun_))
  ++ replicate (243 - length (take 64 (c_str name)) - length (take 64 (c_str fun_))) NUL.

(** *** Further observations, and the declaration macro *)

(** The capture of the begin timestamp, successful or not. *)
Definition is_begin_capture (e : Event) : bool :=
  match e with EvQueryPerformanceCounter F_begin _ => true | _ => false end.

(** Any failed Win32 query: the frequency query or a counter query. *)
Definition is_failed_query (e : Event) : bool :=
  match e with
  | EvQueryPerformanceFrequency (QFail _) => true
  | EvQueryPerformanceCounter _ (QFail _) => true
  | _ => false
  end.

(** An event that carries text carries the label [info], and a diagnostic
    goes to the blob [pBlob]. *)
Definition carries (pBlob : ptr) (info : list ascii) (e : Event) : Prop :=
  match e with
  | EvBlobPrintf b i _ => b = pBlob /\ i = info
  | EvProfilerPushTime i _ _ => i = info
  | _ => True
  end.

(** Both constructor strings are present. *)
Definition is_named (name fun_ : option (list ascii)) : bool :=
  match name, fun_ with
  | Some _, Some _ => true
  | _, _ => false
  end.

(** [DeclFaceWorksProfiler(name)].  With [GFSDK_FACEWORKS_INTERNAL_PROFILING]
    defined ([profiling = true]) the instance is constructed from the
    stringized identifier, [__FUNCTION__] and the [pErrorBlobOut] in scope;
    otherwise from three null pointers. *)
Definition DeclFaceWorksProfiler (os : OS) (profiling : bool)
    (name function : list ascii) (pErrorBlobOut : ptr)
    : World -> option (FaceWorks_Profiler * World) :=
  if profiling
  then FaceWorks_Profiler_ctor os (Some name) (Some function) pErrorBlobOut
  else FaceWorks_Profiler_ctor os None None nullptr.

(** A declared profiler from its declaration to the end of its scope. *)
Definition decl_lifetime (os : OS) (profiling : bool) (name function : list ascii)
    (pErrorBlobOut : ptr) (cs : list call) : option (list Event) :=
  '(p, w) ← DeclFaceWorksProfiler os profiling name function pErrorBlobOut init_world;
  Some (trace (snd ((p ← do_calls os cs p; FaceWorks_Profiler_dtor os p) w))).

End Profiler.

(* ===================================================================== *)
(** ** Concrete inputs used by the examples *)
(* ===================================================================== *)

Module Inputs.
Import Profiler.

(** A platform whose allocate hook reports out-of-memory by returning null. *)
Definition oom_platform : Alloc.Platform :=
  Alloc.mk_platform (fun _ _ => Alloc.Returned nullptr)
                    (fun _ _ => Alloc.Returned tt)
                    (fun bytes => Alloc.Returned 4096).

Definition both_hooks : Alloc.gfsdk_new_delete_t := Alloc.mk_new_delete 11 12.

Definition foo : list ascii := String.list_ascii_of_string "Foo".
Definition bar : list ascii := String.list_ascii_of_string "Bar".
Definition foo_bar : list ascii := String.list_ascii_of_string "FaceWorks_Profiler: Foo|Bar".

Definition name100 : list ascii := replicate 100 "a"%char.
Definition fun100 : list ascii := replicate 100 "b"%char.

(** Frequency 1000; the first counter query gives 10, every later one
    fails with error 5. *)
Definition os_end_fails : OS :=
  mk_os (QOk 1000) (fun k => match k with O => QOk 10 | S _ => QFail 5 end).

(** The frequency query fails with error 7; the k-th counter query
    gives 10 * k. *)
Definition os_no_freq : OS :=
  mk_os (QFail 7) (fun k => QOk (10 * Z.of_nat k)).

(** Every query fails. *)
Definition os_all_fail : OS := mk_os (QFail 7) (fun _ => QFail 5).

(** The instance ["Foo"]/["Bar"] with error blob 1 after a successful
    [start()] under [os_end_fails], and the world at that point. *)
Definition p_started : FaceWorks_Profiler :=
  mk_profiler 10 0 1000 (built foo bar) true false 1.
Definition w_started : World :=
  mk_world 1 [EvQueryPerformanceFrequency (QOk 1000);
              EvQueryPerformanceCounter F_begin (QOk 10)].

(** The same instance before [start()]. *)
Definition p_idle : FaceWorks_Profiler :=
  mk_profiler 0 0 1000 (built foo bar) false false 1.
Definition w_idle : World := mk_world 0 [EvQueryPerformanceFrequency (QOk 1000)].
(** A hook pair on a platform where the allocate hook hands out the block
    at 4096 and the deallocate hook throws nothing. *)
Definition good_platform : Alloc.Platform :=
  Alloc.mk_platform (fun _ _ => Alloc.Returned 4096)
                    (fun _ _ => Alloc.Returned tt)
                    (fun bytes => Alloc.Returned 8192).

(** A platform whose allocate hook throws an exception of its own. *)
Definition throwing_platform : Alloc.Platform :=
  Alloc.mk_platform (fun _ _ => Alloc.Threw (Alloc.foreign_exn 3))
                    (fun _ _ => Alloc.Returned tt)
                    (fun bytes => Alloc.Returned 8192).

(** Every query succeeds: frequency 1000, the k-th counter query gives
    10 * k + 5. *)
Definition os_ok : OS := mk_os (QOk 1000) (fun k => QOk (10 * Z.of_nat k + 5)).

Definition name101 : list ascii := replicate 101 "a"%char.
End Inputs.

(* ===================================================================== *)
(** ** Properties of the allocation layer *)
(* ===================================================================== *)

Section AllocProperties.
Import Alloc.

Lemma is_set_false (p : Z) : is_set p = false <-> p = nullptr.
Proof.
  unfold is_set, nullptr. destruct (Z.eqb_spec p 0); simpl; split; congruence.
Qed.

Lemma is_set_true (p : Z) : is_set p = true <-> p <> nullptr.
Proof.
  unfold is_set, nullptr. destruct (Z.eqb_spec p 0); simpl; split; congruence.
Qed.

(** [FaceWorks_Malloc] makes exactly one external call and hands its
    outcome on unchanged. *)
Lemma FaceWorks_Malloc_result (P : Platform) (bytes : Z) (h : gfsdk_new_delete_t) :
  result (FaceWorks_Malloc P bytes h)
  = if is_set (new_ h) then call_new P (new_ h) bytes else operator_new P bytes.
Proof. unfold FaceWorks_Malloc. by destruct (is_set (new_ h)). Qed.

(** What [allocate] does with each outcome of [FaceWorks_Malloc]. *)
Lemma allocate_result (P : Platform) (T : ctype) (a : FaceWorks_Allocator T)
    (n : Z) (hint : ptr) :
  result (allocate P a n hint)
  = match result (FaceWorks_Malloc P (wrap_size_t (n * sizeof T)) (m_allocator a)) with
    | Returned p => if is_set p then Returned p else Threw bad_alloc
    | Threw e => Threw e
    end.
Proof.
  unfold allocate, result, mbind, M_bind.
  destruct (FaceWorks_Malloc P _ _) as [t [p|e]]; simpl; [|done].
  by destruct (is_set p).
Qed.
End AllocProperties.

(** C1: when [FaceWorks_Malloc] returns a null pointer,
    [FaceWorks_Allocator<T>::allocate] throws [std::bad_alloc]; for every
    count, hook pair and platform behaviour, [allocate] either returns a
    non-null pointer or throws, and it never returns null. *)
Theorem C1_allocate_null_becomes_bad_alloc
    (P : Alloc.Platform) (T : Alloc.ctype) (a : Alloc.FaceWorks_Allocator T)
    (n : Z) (hint : ptr) :
  (Alloc.result (Alloc.FaceWorks_Malloc P (wrap_size_t (n * Alloc.sizeof T))
                   (Alloc.m_allocator a)) = Alloc.Returned nullptr ->
   Alloc.result (Alloc.allocate P a n hint) = Alloc.Threw Alloc.bad_alloc)
  /\ Alloc.result (Alloc.allocate P a n hint) <> Alloc.Returned nullptr
  /\ ((exists p, p <> nullptr /\ Alloc.result (Alloc.allocate P a n hint) = Alloc.Returned p)
      \/ (exists e, Alloc.result (Alloc.allocate P a n hint) = Alloc.Threw e)).
Proof.
  rewrite allocate_result.
  destruct (Alloc.result (Alloc.FaceWorks_Malloc P _ _)) as [p|e].
  - destruct (is_set p) eqn:Hp.
    + apply is_set_true in Hp. split; [|split].
      * intros [= ->]. done.
      * intros [= ->]. done.
      * left. by exists p.
    + split; [done|]. split; [done|]. right. by eexists.
  - split; [done|]. split; [done|]. right. by eexists.
Qed.

Lemma C1_witness :
  Alloc.result (Alloc.allocate Inputs.oom_platform
                  (Alloc.FaceWorks_Allocator_ctor (Alloc.mk_ctype 8) (Some Inputs.both_hooks)) 3 nullptr)
  = Alloc.Threw Alloc.bad_alloc.
Proof.
  apply (proj1 (C1_allocate_null_becomes_bad_alloc Inputs.oom_platform (Alloc.mk_ctype 8)
                  (Alloc.FaceWorks_Allocator_ctor (Alloc.mk_ctype 8) (Some Inputs.both_hooks))
                  3 nullptr)).
  reflexivity.
Defined.

(** C8: releasing a null pointer is a no-op for every hook configuration:
    [FaceWorks_Free(nullptr, a)] and [deallocate(nullptr, n)] return normally
    and call neither the deallocate hook nor [operator delete]. *)
Theorem C8_free_null_is_noop
    (P : Alloc.Platform) (h : Alloc.gfsdk_new_delete_t) (T : Alloc.ctype) (n : Z) :
  Alloc.FaceWorks_Free P nullptr h = ([], Alloc.Returned tt)
  /\ Alloc.deallocate P (Alloc.mk_allocator T h) nullptr n = ([], Alloc.Returned tt).
Proof. split; reflexivity. Qed.

(** C9: the converting constructor of [FaceWorks_Allocator] copies the hook
    pair: the rebound allocator holds the same [new_] and [delete_]
    pointers as the original. *)
Theorem C9_rebind_keeps_hooks
    (T T1 : Alloc.ctype) (other : Alloc.FaceWorks_Allocator T1) :
  Alloc.m_allocator (Alloc.FaceWorks_Allocator_rebind T other) = Alloc.m_allocator other
  /\ Alloc.new_ (Alloc.m_allocator (Alloc.FaceWorks_Allocator_rebind T other))
     = Alloc.new_ (Alloc.m_allocator other)
  /\ Alloc.delete_ (Alloc.m_allocator (Alloc.FaceWorks_Allocator_rebind T other))
     = Alloc.delete_ (Alloc.m_allocator other).
Proof. by unfold Alloc.FaceWorks_Allocator_rebind. Qed.

(** C10: with one hook set and the other null, each operation looks at its
    own hook only.  Allocate hook alone: [FaceWorks_Malloc] calls the hook
    and [FaceWorks_Free] calls [operator delete].  Deallocate hook alone:
    [FaceWorks_Malloc] calls [operator new] and [FaceWorks_Free] calls the
    hook.  The allocator constructor stores a partial pair as given. *)
Theorem C10_partial_hooks_dispatch_independently
    (P : Alloc.Platform) (T : Alloc.ctype) (f : fnptr) (bytes : Z) (p : ptr) :
  f <> nullptr -> p <> nullptr ->
  let only_new := Alloc.mk_new_delete f nullptr in
  let only_delete := Alloc.mk_new_delete nullptr f in
  Alloc.FaceWorks_Malloc P bytes only_new = ([Alloc.EvHookNew f bytes], Alloc.call_new P f bytes)
  /\ Alloc.FaceWorks_Free P p only_new = ([Alloc.EvOperatorDelete p], Alloc.Returned tt)
  /\ Alloc.FaceWorks_Malloc P bytes only_delete
     = ([Alloc.EvOperatorNew bytes], Alloc.operator_new P bytes)
  /\ Alloc.FaceWorks_Free P p only_delete
     = ([Alloc.EvHookDelete f p], Alloc.call_delete P f p)
  /\ Alloc.m_allocator (Alloc.FaceWorks_Allocator_ctor T (Some only_new)) = only_new
  /\ Alloc.m_allocator (Alloc.FaceWorks_Allocator_ctor T (Some only_delete)) = only_delete.
Proof.
  intros Hf Hp only_new only_delete.
  apply is_set_true in Hf. apply is_set_true in Hp.
  unfold Alloc.FaceWorks_Malloc, Alloc.FaceWorks_Free, only_new, only_delete; simpl.
  rewrite Hf, Hp. simpl. repeat split.
Qed.

Lemma C10_witness :
  Alloc.FaceWorks_Malloc Inputs.oom_platform 24 (Alloc.mk_new_delete 11 nullptr)
  = ([Alloc.EvHookNew 11 24], Alloc.Returned nullptr)
  /\ Alloc.FaceWorks_Free Inputs.oom_platform 4096 (Alloc.mk_new_delete 11 nullptr)
     = ([Alloc.EvOperatorDelete 4096], Alloc.Returned tt).
Proof.
  destruct (C10_partial_hooks_dispatch_independently Inputs.oom_platform (Alloc.mk_ctype 8)
              11 24 4096) as (H1 & H2 & _).
  - unfold nullptr; lia.
  - unfold nullptr; lia.
  - split; [exact H1 | exact H2].
Defined.

(* ===================================================================== *)
(** ** Properties of the label *)
(* ===================================================================== *)

Section LabelProperties.
Import Profiler.

Lemma strlen_nat_le (s : list ascii) : (strlen_nat s <= length s)%nat.
Proof.
  induction s as [|c s IH]; simpl; [lia|].
  destruct (decide (c = NUL)); simpl; lia.
Qed.

Lemma c_str_no_NUL (s : list ascii) : Forall (fun c => c <> NUL) (c_str s).
Proof.
  unfold c_str. induction s as [|c s IH]; simpl; [constructor|].
  destruct (decide (c = NUL)); simpl; [constructor|]. by constructor.
Qed.

Lemma length_c_str (s : list ascii) : length (c_str s) = strlen_nat s.
Proof. unfold c_str. rewrite length_take. pose proof (strlen_nat_le s). lia. Qed.

(** Reading a C string out of an array: text without NUL, then a NUL. *)
Lemma strlen_nat_terminated (l r : list ascii) :
  Forall (fun c => c <> NUL) l -> strlen_nat (l ++ NUL :: r) = length l.
Proof.
  induction 1 as [|c l Hc _ IH]; simpl.
  - by destruct (decide (NUL = NUL)).
  - destruct (decide (c = NUL)); [done|]. by rewrite IH.
Qed.

Lemma c_str_terminated (l r : list ascii) :
  Forall (fun c => c <> NUL) l -> c_str (l ++ NUL :: r) = l.
Proof.
  intros H. unfold c_str. rewrite (strlen_nat_terminated l r H).
  by rewrite take_app_length.
Qed.

Lemma copy_bytes_spec (src : list ascii) :
  forall (a : list ascii) (off : nat),
    (off + length src <= length a)%nat ->
    copy_bytes a off src = take off a ++ src ++ drop (off + length src) a.
Proof.
  induction src as [|c src IH]; intros a off Hlen; simpl in *.
  - rewrite Nat.add_0_r. by rewrite take_drop.
  - rewrite IH by (rewrite length_insert; lia).
    assert (Hc : <[off:=c]> a !! off = Some c)
      by (apply list_lookup_insert_eq; lia).
    rewrite (take_S_r _ _ _ Hc), take_insert_ge by lia.
    rewrite drop_insert_lt by lia.
    rewrite <- app_assoc. simpl. do 4 f_equal. lia.
Qed.

(** Appending to the written part of a zero-filled array. *)
Lemma memcpy_s_append (w src : list ascii) (r n : nat) :
  (n <= r)%nat -> (n <= length src)%nat ->
  memcpy_s (w ++ replicate r NUL) (Z.of_nat (length w)) (Z.of_nat n) src (Z.of_nat n)
  = Some (w ++ take n src ++ replicate (r - n) NUL).
Proof.
  intros Hr Hs. unfold memcpy_s.
  destruct (decide (Z.of_nat n = 0)) as [H0|H0].
  - assert (n = 0%nat) as -> by lia. by rewrite take_0, Nat.sub_0_r.
  - rewrite decide_True
      by (rewrite length_app, length_replicate; lia).
    rewrite !Nat2Z.id, copy_bytes_spec
      by (rewrite length_take, length_app, length_replicate; lia).
    rewrite take_app_length, length_take, Nat.min_l by lia.
    rewrite drop_app_add, drop_replicate. done.
Qed.

Lemma store_append (w : list ascii) (r : nat) (c : ascii) :
  (1 <= r)%nat ->
  store (w ++ replicate r NUL) (Z.of_nat (length w)) c
  = Some (w ++ c :: replicate (r - 1) NUL).
Proof.
  intros Hr. unfold store.
  rewrite decide_True by (rewrite length_app, length_replicate; lia).
  rewrite Nat2Z.id. destruct r as [|r]; [lia|]. simpl.
  rewrite Nat.sub_0_r. f_equal.
  rewrite insert_app_r_alt, Nat.sub_diag by lia. done.
Qed.

Lemma prefix_length : length prefix = 20%nat.
Proof. reflexivity. Qed.

Lemma strlen_prefix : strlen prefix = 20.
Proof. reflexivity. Qed.

Lemma prefix_no_NUL : Forall (fun c => c <> NUL) prefix.
Proof. unfold prefix; simpl. repeat (constructor; [discriminate|]). constructor. Qed.

(** [min(strlen(s), 64ull)] bytes of [s] are the C string cut at 64. *)
Lemma take_min_strlen (s : list ascii) :
  take (min (strlen_nat s) 64) s = take 64 (c_str s).
Proof. unfold c_str. rewrite take_take. f_equal. lia. Qed.

Lemma length_take64 (s : list ascii) :
  length (take 64 (c_str s)) = min (strlen_nat s) 64.
Proof. rewrite length_take, length_c_str. lia. Qed.

Lemma build_label_spec (name fun_ : list ascii) :
  build_label (replicate info_str_size NUL) name fun_ = Some (built name fun_).
Proof.
  unfold build_label, built. rewrite strlen_prefix.
  set (k := min (strlen_nat name) 64).
  set (m := min (strlen_nat fun_) 64).
  assert (Hk : Z.min (strlen name) 64 = Z.of_nat k) by (unfold strlen, k; lia).
  assert (Hm : Z.min (strlen fun_) 64 = Z.of_nat m) by (unfold strlen, m; lia).
  pose proof (strlen_nat_le name) as Hn. pose proof (strlen_nat_le fun_) as Hf.
  rewrite Hk, Hm, !length_take64. fold k m.
  (* the prefix *)
  assert (H1 : memcpy_s (replicate info_str_size NUL) 0 20 prefix 20
               = Some (prefix ++ replicate (info_str_size - 20) NUL)).
  { exact (memcpy_s_append [] prefix info_str_size 20
             ltac:(unfold info_str_size; lia) ltac:(rewrite prefix_length; lia)). }
  rewrite H1. clear H1. cbn [mbind option_bind].
  (* the name *)
  assert (H2 : memcpy_s (prefix ++ replicate (info_str_size - 20) NUL) 20
                 (Z.of_nat k) name (Z.of_nat k)
               = Some (prefix ++ take 64 (c_str name)
                         ++ replicate (info_str_size - 20 - k) NUL)).
  { rewrite <- take_min_strlen.
    exact (memcpy_s_append prefix name (info_str_size - 20) k
             ltac:(unfold info_str_size, k; lia) ltac:(unfold k; lia)). }
  rewrite H2. clear H2. cbn [mbind option_bind].
  set (n64 := take 64 (c_str name)).
  assert (Hn64 : length n64 = k) by apply length_take64.
  (* the separator *)
  assert (Hw1 : wrap_size_t (Z.of_nat k + 20) = Z.of_nat (length (prefix ++ n64))).
  { rewrite length_app, prefix_length, Hn64.
    unfold wrap_size_t, size_t_modulus. rewrite Z.mod_small; lia. }
  rewrite Hw1, (app_assoc prefix n64), store_append by (unfold info_str_size, k; lia).
  cbn [mbind option_bind].
  (* the calling context *)
  assert (Hw2 : wrap_size_t (Z.of_nat (length (prefix ++ n64)) + 1)
                = Z.of_nat (length ((prefix ++ n64) ++ ["|"%char]))).
  { rewrite !length_app, prefix_length, Hn64. simpl length.
    unfold wrap_size_t, size_t_modulus. rewrite Z.mod_small; lia. }
  rewrite Hw2.
  assert (Hlen : (wrap_size_t (256 - Z.of_nat (length ((prefix ++ n64) ++ ["|"%char]))))
                   `min` Z.of_nat m = Z.of_nat m).
  { rewrite !length_app, prefix_length, Hn64. simpl length.
    unfold wrap_size_t, size_t_modulus. rewrite Z.mod_small; lia. }
  rewrite Hlen.
  rewrite (cons_middle "|"%char), (app_assoc (prefix ++ n64)).
  rewrite memcpy_s_append by (unfold info_str_size, k, m; lia).
  fold (Init.Nat.min (strlen_nat fun_) 64) in m.
  replace (take m fun_) with (take 64 (c_str fun_)) by (symmetry; apply take_min_strlen).
  f_equal. rewrite <- !app_assoc. do 4 f_equal.
  f_equal. unfold info_str_size. lia.
Qed.
End LabelProperties.

Section CtorProperties.
Import Profiler.

Lemma built_text_no_NUL (name fun_ : list ascii) :
  Forall (fun c => c <> NUL)
         (prefix ++ take 64 (c_str name) ++ ["|"%char] ++ take 64 (c_str fun_)).
Proof.
  repeat apply Forall_app_2.
  - apply prefix_no_NUL.
  - apply Forall_take, c_str_no_NUL.
  - by repeat constructor.
  - apply Forall_take, c_str_no_NUL.
Qed.

Lemma built_text_length (name fun_ : list ascii) :
  length (prefix ++ take 64 (c_str name) ++ ["|"%char] ++ take 64 (c_str fun_))
  = (21 + min (strlen_nat name) 64 + min (strlen_nat fun_) 64)%nat.
Proof. rewrite !length_app, prefix_length, !length_take64. simpl. lia. Qed.

Lemma built_split (name fun_ : list ascii) :
  exists r,
    built name fun_
    = (prefix ++ take 64 (c_str name) ++ ["|"%char] ++ take 64 (c_str fun_))
      ++ NUL :: replicate r NUL.
Proof.
  unfold built. rewrite !length_take64.
  exists (242 - min (strlen_nat name) 64 - min (strlen_nat fun_) 64)%nat.
  f_equal.
  replace (243 - min (strlen_nat name) 64 - min (strlen_nat fun_) 64)%nat
    with (S (242 - min (strlen_nat name) 64 - min (strlen_nat fun_) 64)) by lia.
  done.
Qed.

Lemma built_length (name fun_ : list ascii) : length (built name fun_) = info_str_size.
Proof.
  unfold built. rewrite length_app, built_text_length, length_replicate, !length_take64.
  unfold info_str_size. lia.
Qed.

Lemma built_c_str (name fun_ : list ascii) :
  c_str (built name fun_)
  = prefix ++ take 64 (c_str name) ++ ["|"%char] ++ take 64 (c_str fun_).
Proof.
  destruct (built_split name fun_) as [r ->].
  apply c_str_terminated, built_text_no_NUL.
Qed.

Lemma built_strlen (name fun_ : list ascii) :
  strlen_nat (built name fun_)
  = (21 + min (strlen_nat name) 64 + min (strlen_nat fun_) 64)%nat.
Proof.
  destruct (built_split name fun_) as [r ->].
  rewrite strlen_nat_terminated by apply built_text_no_NUL.
  apply built_text_length.
Qed.

Lemma built_terminator (name fun_ : list ascii) :
  built name fun_ !! strlen_nat (built name fun_) = Some NUL.
Proof.
  rewrite built_strlen, <- built_text_length.
  destruct (built_split name fun_) as [r ->].
  by apply list_lookup_middle.
Qed.

(** The constructor on two present strings, in closed form. *)
Lemma ctor_named (os : OS) (name fun_ : list ascii) (pBlob : ptr) (w : World) :
  FaceWorks_Profiler_ctor os (Some name) (Some fun_) pBlob w
  = Some
      (match qpf os with
       | QOk f =>
           (mk_profiler 0 0 f (built name fun_) false false pBlob,
            mk_world (queries w) (trace w ++ [EvQueryPerformanceFrequency (QOk f)]))
       | QFail err =>
           (mk_profiler 0 0 0 (built name fun_) false false pBlob,
            mk_world (queries w)
              ((trace w ++ [EvQueryPerformanceFrequency (QFail err)])
               ++ (if is_set pBlob
                   then [EvBlobPrintf pBlob (c_str (built name fun_)) err]
                   else [])))
       end).
Proof.
  unfold FaceWorks_Profiler_ctor. cbn [m_info_str].
  rewrite build_label_spec. cbn [mbind option_bind]. f_equal.
  unfold mbind, St_bind, QueryPerformanceFrequency, mret, St_ret, emit.
  cbn [set_m_info_str set_m_freq m_begin m_end m_freq m_info_str m_did_start
       m_is_dummy pErrorBlobOut queries trace].
  destruct (qpf os) as [f|err]; [done|].
  destruct (is_set pBlob); [done|]. by rewrite app_nil_r.
Qed.

(** The constructor when a string is absent. *)
Lemma ctor_dummy (os : OS) (name fun_ : option (list ascii)) (pBlob : ptr) (w : World) :
  name = None \/ fun_ = None ->
  FaceWorks_Profiler_ctor os name fun_ pBlob w
  = Some (mk_profiler 0 0 0 (replicate info_str_size NUL) false true pBlob, w).
Proof.
  intros [-> | ->]; unfold FaceWorks_Profiler_ctor; [done|]. by destruct name.
Qed.
End CtorProperties.

(** C4: for every operation name and calling-context identifier the
    constructor builds the label without writing outside [m_info_str]; the
    array keeps its 264 bytes, the label is at most 256 bytes long, and the
    byte that follows the label inside the array is NUL. *)
Theorem C4_label_stays_within_capacity
    (os : Profiler.OS) (name fun_ : list ascii) (pBlob : ptr) (w : Profiler.World) :
  exists p w',
    Profiler.FaceWorks_Profiler_ctor os (Some name) (Some fun_) pBlob w = Some (p, w')
    /\ length (Profiler.m_info_str p) = Profiler.info_str_size
    /\ (Profiler.strlen_nat (Profiler.m_info_str p) <= 256)%nat
    /\ (Profiler.strlen_nat (Profiler.m_info_str p) < Profiler.info_str_size)%nat
    /\ Profiler.m_info_str p !! Profiler.strlen_nat (Profiler.m_info_str p)
       = Some Profiler.NUL.
Proof.
  rewrite ctor_named.
  destruct (Profiler.qpf os) as [f|err]; do 2 eexists; (split; [reflexivity|]);
    cbn [Profiler.m_info_str]; rewrite built_length, built_strlen;
    (repeat split; [unfold Profiler.info_str_size; lia ..
                   | rewrite <- (built_strlen name fun_); apply built_terminator]).
Qed.

(** C5 (amended): the label of a named instance is the whole prefix, the
    operation name cut at 64 bytes, the separator, and the calling-context
    identifier cut at 64 bytes as well. *)
Theorem C5_label_contents
    (os : Profiler.OS) (name fun_ : list ascii) (pBlob : ptr) :
  Profiler.ctor_label os (Some name) (Some fun_) pBlob
  = Some (Profiler.prefix ++ take 64 (Profiler.c_str name)
            ++ ["|"%char] ++ take 64 (Profiler.c_str fun_)).
Proof.
  unfold Profiler.ctor_label. rewrite ctor_named.
  destruct (Profiler.qpf os); cbn [mbind option_bind Profiler.m_info_str];
    by rewrite built_c_str.
Qed.

(* ===================================================================== *)
(** ** Properties of the profiler's life cycle *)
(* ===================================================================== *)

Section LifecycleProperties.
Import Profiler.
Variable os : OS.

Lemma count_events_app (f : Event -> bool) (t1 t2 : list Event) :
  count_events f (t1 ++ t2) = (count_events f t1 + count_events f t2)%nat.
Proof. induction t1 as [|e t1 IH]; simpl; [done|]. rewrite IH. lia. Qed.

(** A dummy instance that has not started is a fixed point of every call. *)
Lemma do_calls_dummy (cs : list call) (p : FaceWorks_Profiler) (w : World) :
  m_is_dummy p = true -> do_calls os cs p w = (p, w).
Proof.
  intros Hd. induction cs as [|c cs IH]; [done|].
  cbn [do_calls]. unfold mbind, St_bind.
  replace (do_call os c p w) with (p, w); [exact IH|].
  destruct c; unfold do_call, start, stop; rewrite Hd;
    by rewrite ?andb_false_r.
Qed.

(** What one counter query adds to the trace. *)
Lemma try_query_trace (which : field) (p : FaceWorks_Profiler) (w : World) :
  exists evs,
    trace (snd (try_query_and_report_err os which p w)) = trace w ++ evs
    /\ count_events is_push evs = 0%nat
    /\ count_events is_capture evs = 1%nat
    /\ count_events is_end_capture evs
       = (match which with F_begin => 0 | F_end => 1 end)%nat
    /\ count_events is_diag evs
       = (if is_set (pErrorBlobOut p) then count_events is_failed_capture evs else 0)%nat.
Proof.
  unfold try_query_and_report_err, mbind, St_bind, QueryPerformanceCounter, mret,
    St_ret, emit.
  destruct (qpc os (queries w)) as [t|err]; [|destruct (is_set (pErrorBlobOut p)) eqn:Hb];
    cbn [snd trace]; rewrite <- ?app_assoc;
    eexists; (split; [reflexivity|]); rewrite ?Hb;
    destruct which; try destruct (is_set (pErrorBlobOut p)); done.
Qed.

Lemma try_query_fields (which : field) (p : FaceWorks_Profiler) (w : World) :
  let p' := fst (try_query_and_report_err os which p w) in
  m_is_dummy p' = m_is_dummy p /\ m_did_start p' = m_did_start p
  /\ pErrorBlobOut p' = pErrorBlobOut p /\ m_info_str p' = m_info_str p
  /\ m_freq p' = m_freq p.
Proof.
  unfold try_query_and_report_err, mbind, St_bind, QueryPerformanceCounter, mret,
    St_ret, emit.
  destruct (qpc os (queries w)) as [t|err]; [by destruct which|].
  by destruct (is_set (pErrorBlobOut p)).
Qed.

(** One call on a live (non-dummy) instance. *)
Lemma do_call_live (c : call) (p : FaceWorks_Profiler) (w : World) :
  m_is_dummy p = false ->
  exists evs,
    trace (snd (do_call os c p w)) = trace w ++ evs
    /\ m_is_dummy (fst (do_call os c p w)) = false
    /\ pErrorBlobOut (fst (do_call os c p w)) = pErrorBlobOut p
    /\ m_did_start (fst (do_call os c p w))
       = (m_did_start p || match c with Start => true | Stop => false end)
    /\ count_events is_push evs = 0%nat
    /\ count_events is_end_capture evs
       = (match c with Stop => if m_did_start p then 1 else 0 | Start => 0 end)%nat
    /\ count_events is_diag evs
       = (if is_set (pErrorBlobOut p) then count_events is_failed_capture evs else 0)%nat.
Proof.
  intros Hd.
  destruct c; unfold do_call, start, stop; rewrite Hd;
    destruct (m_did_start p) eqn:Hs; cbn [negb andb].
  - exists []. rewrite app_nil_r. unfold mret, St_ret; cbn [fst snd].
    by destruct (is_set (pErrorBlobOut p)).
  - unfold mbind, St_bind, mret, St_ret.
    destruct (try_query_trace F_begin p w) as (evs & Ht & H1 & _ & H2 & H3).
    destruct (try_query_fields F_begin p w) as (F1 & F2 & F3 & _).
    destruct (try_query_and_report_err os F_begin p w) as [p' w'].
    cbn [fst snd] in *. exists evs.
    cbn [set_m_did_start m_is_dummy pErrorBlobOut m_did_start orb].
    by rewrite Ht, H1, H2, H3, F1, F3.
  - destruct (try_query_trace F_end p w) as (evs & Ht & H1 & _ & H2 & H3).
    destruct (try_query_fields F_end p w) as (F1 & F2 & F3 & _).
    exists evs. by rewrite Ht, H1, H2, H3, F1, F2, F3.
  - exists []. rewrite app_nil_r. unfold mret, St_ret; cbn [fst snd].
    by destruct (is_set (pErrorBlobOut p)).
Qed.

(** Any number of calls on a live instance. *)
Lemma do_calls_live (cs : list call) :
  forall (p : FaceWorks_Profiler) (w : World),
    m_is_dummy p = false ->
    exists evs,
      trace (snd (do_calls os cs p w)) = trace w ++ evs
      /\ m_is_dummy (fst (do_calls os cs p w)) = false
      /\ pErrorBlobOut (fst (do_calls os cs p w)) = pErrorBlobOut p
      /\ m_did_start (fst (do_calls os cs p w)) = (m_did_start p || has_start cs)
      /\ count_events is_push evs = 0%nat
      /\ count_events is_end_capture evs
         = (if m_did_start p then count_stops cs else stops_after_start cs)
      /\ count_events is_diag evs
         = (if is_set (pErrorBlobOut p) then count_events is_failed_capture evs else 0)%nat.
Proof.
  induction cs as [|c cs IH]; intros p w Hd.
  - exists []. cbn [do_calls]. unfold mret, St_ret; cbn [fst snd has_start existsb].
    rewrite app_nil_r, orb_false_r.
    by destruct (m_did_start p), (is_set (pErrorBlobOut p)).
  - cbn [do_calls]. unfold mbind, St_bind.
    destruct (do_call_live c p w Hd) as (e1 & Ht1 & D1 & B1 & S1 & P1 & E1 & G1).
    destruct (do_call os c p w) as [p1 w1]. cbn [fst snd] in *.
    destruct (IH p1 w1 D1) as (e2 & Ht2 & D2 & B2 & S2 & P2 & E2 & G2).
    exists (e1 ++ e2).
    rewrite Ht2, Ht1, <- app_assoc, !count_events_app, P1, P2, E1, E2, G1, G2,
      D2, B2, S2, S1, B1.
    repeat split.
    + destruct c; cbn [has_start existsb]; by rewrite ?orb_assoc.
    + destruct c, (m_did_start p); cbn [orb count_stops stops_after_start]; lia.
    + by destruct (is_set (pErrorBlobOut p)).
Qed.

(** Only live instances ever get [m_did_start] set: whatever was
    constructed and whatever calls were made, a started instance is not a
    dummy. *)
Lemma started_is_live (name fun_ : option (list ascii)) (pBlob : ptr) (cs : list call)
    (p0 : FaceWorks_Profiler) (w0 : World) :
  FaceWorks_Profiler_ctor os name fun_ pBlob init_world = Some (p0, w0) ->
  m_did_start (fst (do_calls os cs p0 w0)) = true ->
  m_is_dummy (fst (do_calls os cs p0 w0)) = false.
Proof.
  intros Hc Hs. destruct (m_is_dummy p0) eqn:Hd.
  - rewrite do_calls_dummy in Hs by done. cbn [fst] in Hs.
    unfold FaceWorks_Profiler_ctor in Hc.
    destruct name as [name|], fun_ as [fun_|]; cbn [mbind option_bind] in Hc;
      [|by injection Hc as <- _ ..].
    destruct (build_label _ name fun_) as [info|]; [|done].
    cbn [mbind option_bind] in Hc. injection Hc as Hc.
    unfold mbind, St_bind, QueryPerformanceFrequency, mret, St_ret, emit in Hc.
    destruct (qpf os); [|destruct (is_set _)]; by injection Hc as <- _.
  - by destruct (do_calls_live cs p0 w0 Hd) as (_ & _ & D & _).
Qed.

(** The destructor of a live instance. *)
Lemma dtor_live (p : FaceWorks_Profiler) (w : World) :
  m_is_dummy p = false ->
  exists evs,
    trace (snd (FaceWorks_Profiler_dtor os p w)) = trace w ++ evs
    /\ count_events is_push evs = (if m_did_start p then 1 else 0)%nat
    /\ count_events is_end_capture evs = (if m_did_start p then 1 else 0)%nat
    /\ count_events is_diag evs
       = (if is_set (pErrorBlobOut p) then count_events is_failed_capture evs else 0)%nat.
Proof.
  intros Hd. unfold FaceWorks_Profiler_dtor, stop. rewrite Hd.
  destruct (m_did_start p) eqn:Hs; cbn [negb andb].
  - unfold mbind, St_bind, emit.
    destruct (try_query_trace F_end p w) as (evs & Ht & H1 & _ & H2 & H3).
    destruct (try_query_and_report_err os F_end p w) as [p' w'].
    cbn [fst snd trace] in *. eexists. rewrite Ht, <- app_assoc.
    split; [reflexivity|]. rewrite !count_events_app, H1, H2, H3. cbn.
    destruct (is_set (pErrorBlobOut p)); repeat split; lia.
  - exists []. unfold mret, St_ret; cbn [snd]. rewrite app_nil_r.
    by destruct (is_set (pErrorBlobOut p)).
Qed.
End LifecycleProperties.

(** C2 (amended): when the end-timestamp query made by the destructor of a
    started instance fails, the failure is printed to the error blob if one
    was supplied and to nowhere otherwise, and the sample is pushed to
    [ProfilerPushTime] all the same, computed from the stale [m_end]. *)
Theorem C2_failed_end_capture_still_pushes
    (os : Profiler.OS) (p : Profiler.FaceWorks_Profiler) (w : Profiler.World) (err : Z) :
  Profiler.m_did_start p = true ->
  Profiler.m_is_dummy p = false ->
  Profiler.qpc os (Profiler.queries w) = Profiler.QFail err ->
  Profiler.trace (snd (Profiler.FaceWorks_Profiler_dtor os p w))
  = Profiler.trace w
    ++ [Profiler.EvQueryPerformanceCounter Profiler.F_end (Profiler.QFail err)]
    ++ (if is_set (Profiler.pErrorBlobOut p)
        then [Profiler.EvBlobPrintf (Profiler.pErrorBlobOut p)
                (Profiler.c_str (Profiler.m_info_str p)) err]
        else [])
    ++ [Profiler.EvProfilerPushTime (Profiler.c_str (Profiler.m_info_str p))
          (wrap_i64 (Profiler.m_end p - Profiler.m_begin p)) (Profiler.m_freq p)].
Proof.
  intros Hs Hd Hq.
  unfold Profiler.FaceWorks_Profiler_dtor, Profiler.stop,
    Profiler.try_query_and_report_err, Profiler.QueryPerformanceCounter, Profiler.emit,
    mbind, Profiler.St_bind, mret, Profiler.St_ret.
  rewrite Hs, Hd. cbn [negb andb]. rewrite Hq.
  destruct (is_set (Profiler.pErrorBlobOut p)); cbn [snd Profiler.trace];
    by rewrite <- !app_assoc.
Qed.

Lemma C2_witness :
  Profiler.trace (snd (Profiler.FaceWorks_Profiler_dtor Inputs.os_end_fails
                         Inputs.p_started Inputs.w_started))
  = Profiler.trace Inputs.w_started
    ++ [Profiler.EvQueryPerformanceCounter Profiler.F_end (Profiler.QFail 5)]
    ++ [Profiler.EvBlobPrintf 1 (Profiler.c_str (Profiler.built Inputs.foo Inputs.bar)) 5]
    ++ [Profiler.EvProfilerPushTime (Profiler.c_str (Profiler.built Inputs.foo Inputs.bar))
          (wrap_i64 (0 - 10)) 1000].
Proof.
  exact (C2_failed_end_capture_still_pushes Inputs.os_end_fails Inputs.p_started
           Inputs.w_started 5 eq_refl eq_refl eq_refl).
Defined.

(** C2 as written fails: ["Foo"]/["Bar"] with an error blob, one [start()],
    and an end-timestamp query that fails at destruction.  The failure is
    printed, and the sample is pushed nevertheless. *)
Lemma C2_counterexample :
  Profiler.lifetime Inputs.os_end_fails (Some Inputs.foo) (Some Inputs.bar) 1 [Profiler.Start]
  = Some [Profiler.EvQueryPerformanceFrequency (Profiler.QOk 1000);
          Profiler.EvQueryPerformanceCounter Profiler.F_begin (Profiler.QOk 10);
          Profiler.EvQueryPerformanceCounter Profiler.F_end (Profiler.QFail 5);
          Profiler.EvBlobPrintf 1 Inputs.foo_bar 5;
          Profiler.EvProfilerPushTime Inputs.foo_bar (-10) 1000]
  /\ option_map (Profiler.count_events Profiler.is_push)
       (Profiler.lifetime Inputs.os_end_fails (Some Inputs.foo) (Some Inputs.bar) 1
          [Profiler.Start])
     <> Some 0%nat.
Proof. split; [by vm_compute | by vm_compute]. Qed.

(** C3 (amended): when the frequency query of the constructor fails, the
    constructor prints one diagnostic if an error blob was supplied and none
    otherwise; over the whole lifetime the instance prints, with a blob, that
    one message plus one per failed counter query; and the sample is not
    held back: one is pushed at destruction exactly when [start()] was
    called. *)
Theorem C3_frequency_failure
    (os : Profiler.OS) (name fun_ : list ascii) (pBlob : ptr)
    (cs : list Profiler.call) (err : Z) :
  Profiler.qpf os = Profiler.QFail err ->
  (exists p w,
     Profiler.FaceWorks_Profiler_ctor os (Some name) (Some fun_) pBlob Profiler.init_world
     = Some (p, w)
     /\ Profiler.count_events Profiler.is_diag (Profiler.trace w)
        = (if is_set pBlob then 1 else 0)%nat)
  /\ (exists t,
        Profiler.lifetime os (Some name) (Some fun_) pBlob cs = Some t
        /\ Profiler.count_events Profiler.is_push t
           = (if Profiler.has_start cs then 1 else 0)%nat
        /\ Profiler.count_events Profiler.is_diag t
           = (if is_set pBlob
              then 1 + Profiler.count_events Profiler.is_failed_capture t
              else 0)%nat).
Proof.
  intros Hq. unfold Profiler.lifetime. rewrite ctor_named, Hq. split.
  - do 2 eexists. split; [reflexivity|]. cbn [Profiler.trace Profiler.init_world].
    by destruct (is_set pBlob).
  - cbn [mbind option_bind]. unfold mbind at 1, Profiler.St_bind.
    set (p0 := Profiler.mk_profiler 0 0 0 (Profiler.built name fun_) false false pBlob).
    set (w0 := Profiler.mk_world _ _).
    destruct (do_calls_live os cs p0 w0 eq_refl)
      as (e1 & Ht1 & D1 & B1 & S1 & P1 & _ & G1).
    destruct (Profiler.do_calls os cs p0 w0) as [p1 w1]. cbn [fst snd] in *.
    destruct (dtor_live os p1 w1 D1) as (e2 & Ht2 & P2 & _ & G2).
    eexists. split; [reflexivity|].
    rewrite Ht2, Ht1. unfold w0. cbn [Profiler.trace Profiler.init_world].
    rewrite !count_events_app, P1, P2, G1, G2, S1, B1.
    cbn [Profiler.m_did_start Profiler.pErrorBlobOut p0 orb].
    destruct (is_set pBlob); cbn; split; lia.
Qed.

Lemma C3_witness :
  exists t,
    Profiler.lifetime Inputs.os_no_freq (Some Inputs.foo) (Some Inputs.bar) 1
      [Profiler.Start; Profiler.Stop] = Some t
    /\ Profiler.count_events Profiler.is_push t = 1%nat
    /\ Profiler.count_events Profiler.is_diag t
       = (1 + Profiler.count_events Profiler.is_failed_capture t)%nat.
Proof.
  exact (proj2 (C3_frequency_failure Inputs.os_no_freq Inputs.foo Inputs.bar 1
                  [Profiler.Start; Profiler.Stop] 7 eq_refl)).
Defined.

(** C3 as written fails on each of its two parts.  With a failed frequency
    query and one [start()], a sample is pushed (with frequency 0).  Without
    an error blob no diagnostic is printed at all; with one, and with failing
    counter queries, three are printed. *)
Lemma C3_counterexample :
  Profiler.lifetime Inputs.os_no_freq (Some Inputs.foo) (Some Inputs.bar) 1 [Profiler.Start]
  = Some [Profiler.EvQueryPerformanceFrequency (Profiler.QFail 7);
          Profiler.EvBlobPrintf 1 Inputs.foo_bar 7;
          Profiler.EvQueryPerformanceCounter Profiler.F_begin (Profiler.QOk 0);
          Profiler.EvQueryPerformanceCounter Profiler.F_end (Profiler.QOk 10);
          Profiler.EvProfilerPushTime Inputs.foo_bar 10 0]
  /\ Profiler.lifetime Inputs.os_no_freq (Some Inputs.foo) (Some Inputs.bar) nullptr
       [Profiler.Start]
     = Some [Profiler.EvQueryPerformanceFrequency (Profiler.QFail 7);
             Profiler.EvQueryPerformanceCounter Profiler.F_begin (Profiler.QOk 0);
             Profiler.EvQueryPerformanceCounter Profiler.F_end (Profiler.QOk 10);
             Profiler.EvProfilerPushTime Inputs.foo_bar 10 0]
  /\ option_map (Profiler.count_events Profiler.is_diag)
       (Profiler.lifetime Inputs.os_all_fail (Some Inputs.foo) (Some Inputs.bar) 1
          [Profiler.Start])
     = Some 3%nat.
Proof. repeat split; by vm_compute. Qed.

(** C5 as written fails: with a 100-byte name and a 100-byte context the
    label holds 64 bytes of the context, not the 100 that the remaining
    budget of the 256-byte cap would admit. *)
Lemma C5_counterexample :
  Profiler.ctor_label Inputs.os_end_fails (Some Inputs.name100) (Some Inputs.fun100) nullptr
  <> Some (Profiler.spec_label Inputs.name100 Inputs.fun100)
  /\ Profiler.ctor_label Inputs.os_end_fails (Some Inputs.name100) (Some Inputs.fun100) nullptr
     = Some (Profiler.prefix ++ replicate 64 "a"%char ++ ["|"%char] ++ replicate 64 "b"%char)
  /\ Profiler.spec_label Inputs.name100 Inputs.fun100
     = Profiler.prefix ++ replicate 64 "a"%char ++ ["|"%char] ++ replicate 100 "b"%char.
Proof.
  split; [|split; by vm_compute].
  intros H. apply (f_equal (option_map length)) in H. vm_compute in H. discriminate H.
Qed.

(** C6 (amended): [start()] does nothing when [m_did_start] is set or the
    instance is a dummy; [stop()] does nothing unless [m_did_start] is set
    and the instance is not a dummy.  [m_did_start] is never cleared, so
    there is no separate stopped state: every [stop()] after the first
    [start()] queries the end timestamp again, and the destructor of a
    started instance does so once more. *)
Theorem C6_start_stop_guards
    (os : Profiler.OS) (p : Profiler.FaceWorks_Profiler) (w : Profiler.World)
    (name fun_ : list ascii) (pBlob : ptr) (cs : list Profiler.call) :
  (Profiler.m_did_start p = true \/ Profiler.m_is_dummy p = true ->
   Profiler.start os p w = (p, w))
  /\ (Profiler.m_did_start p = false \/ Profiler.m_is_dummy p = true ->
      Profiler.stop os p w = (p, w))
  /\ (exists t,
        Profiler.scope_trace os (Some name) (Some fun_) pBlob cs = Some t
        /\ Profiler.count_events Profiler.is_end_capture t = Profiler.stops_after_start cs)
  /\ (exists t,
        Profiler.lifetime os (Some name) (Some fun_) pBlob cs = Some t
        /\ Profiler.count_events Profiler.is_end_capture t
           = (Profiler.stops_after_start cs + if Profiler.has_start cs then 1 else 0)%nat).
Proof.
  split; [|split].
  - intros [H|H]; unfold Profiler.start; rewrite H; by rewrite ?andb_false_r.
  - intros [H|H]; unfold Profiler.stop; rewrite H; by rewrite ?andb_false_r.
  - unfold Profiler.scope_trace, Profiler.lifetime. rewrite ctor_named.
    set (pw := match Profiler.qpf os with
               | Profiler.QOk _ => _ | Profiler.QFail _ => _ end).
    assert (Hpw : Profiler.m_is_dummy (fst pw) = false
                  /\ Profiler.m_did_start (fst pw) = false
                  /\ Profiler.count_events Profiler.is_end_capture
                       (Profiler.trace (snd pw)) = 0%nat).
    { unfold pw. destruct (Profiler.qpf os); [done|].
      cbn [fst snd Profiler.trace Profiler.init_world Profiler.m_is_dummy
           Profiler.m_did_start].
      by destruct (is_set pBlob). }
    destruct pw as [p0 w0]. cbn [fst snd] in Hpw. destruct Hpw as (D0 & S0 & E0).
    cbn [mbind option_bind]. unfold mbind at 1, Profiler.St_bind.
    destruct (do_calls_live os cs p0 w0 D0) as (e1 & Ht1 & D1 & _ & S1 & _ & E1 & _).
    destruct (Profiler.do_calls os cs p0 w0) as [p1 w1]. cbn [fst snd] in *.
    destruct (dtor_live os p1 w1 D1) as (e2 & Ht2 & _ & E2 & _).
    split; eexists; (split; [reflexivity|]).
    + rewrite Ht1, count_events_app, E0, E1, S0. done.
    + rewrite Ht2, Ht1, !count_events_app, E0, E1, E2, S0, S1, S0. done.
Qed.

Lemma C6_witness :
  Profiler.start Inputs.os_end_fails Inputs.p_started Inputs.w_started
  = (Inputs.p_started, Inputs.w_started)
  /\ Profiler.stop Inputs.os_end_fails Inputs.p_idle Inputs.w_idle
     = (Inputs.p_idle, Inputs.w_idle).
Proof.
  split.
  - exact (proj1 (C6_start_stop_guards Inputs.os_end_fails Inputs.p_started
                    Inputs.w_started Inputs.foo Inputs.bar 1 [])
                 (or_introl eq_refl)).
  - exact (proj1 (proj2 (C6_start_stop_guards Inputs.os_end_fails Inputs.p_idle
                           Inputs.w_idle Inputs.foo Inputs.bar 1 []))
                 (or_introl eq_refl)).
Defined.

(** C6 as written fails on its last part: after [start(); stop(); stop()]
    the end timestamp has been captured twice, and [start(); stop()]
    followed by the destructor captures it twice as well. *)
Lemma C6_counterexample :
  (exists t,
     Profiler.scope_trace Inputs.os_no_freq (Some Inputs.foo) (Some Inputs.bar) nullptr
       [Profiler.Start; Profiler.Stop; Profiler.Stop] = Some t
     /\ ~ (Profiler.count_events Profiler.is_end_capture t <= 1)%nat)
  /\ Profiler.lifetime Inputs.os_no_freq (Some Inputs.foo) (Some Inputs.bar) nullptr
       [Profiler.Start; Profiler.Stop]
     = Some [Profiler.EvQueryPerformanceFrequency (Profiler.QFail 7);
             Profiler.EvQueryPerformanceCounter Profiler.F_begin (Profiler.QOk 0);
             Profiler.EvQueryPerformanceCounter Profiler.F_end (Profiler.QOk 10);
             Profiler.EvQueryPerformanceCounter Profiler.F_end (Profiler.QOk 20);
             Profiler.EvProfilerPushTime Inputs.foo_bar 20 0].
Proof.
  split; [|by vm_compute].
  eexists. split; [by vm_compute|]. vm_compute. lia.
Qed.

(** C7: an instance constructed without a name or without a calling-context
    identifier is a dummy, and over its whole lifetime, whatever [start()]
    and [stop()] calls are made, it queries no timestamp and never calls
    [ProfilerPushTime]; it makes no external call at all. *)
Theorem C7_dummy_is_inert
    (os : Profiler.OS) (name fun_ : option (list ascii)) (pBlob : ptr)
    (cs : list Profiler.call) :
  name = None \/ fun_ = None ->
  (exists p,
     Profiler.FaceWorks_Profiler_ctor os name fun_ pBlob Profiler.init_world
     = Some (p, Profiler.init_world)
     /\ Profiler.m_is_dummy p = true)
  /\ (exists t,
        Profiler.lifetime os name fun_ pBlob cs = Some t
        /\ Profiler.count_events Profiler.is_capture t = 0%nat
        /\ Profiler.count_events Profiler.is_push t = 0%nat
        /\ t = []).
Proof.
  intros H. unfold Profiler.lifetime. rewrite (ctor_dummy os name fun_ pBlob _ H).
  split; [by eexists|].
  cbn [mbind option_bind]. unfold mbind at 1, Profiler.St_bind.
  rewrite do_calls_dummy by done.
  by exists [].
Qed.

Lemma C7_witness :
  exists t,
    Profiler.lifetime Inputs.os_end_fails None (Some Inputs.bar) 1
      [Profiler.Start; Profiler.Stop; Profiler.Start] = Some t
    /\ Profiler.count_events Profiler.is_capture t = 0%nat
    /\ Profiler.count_events Profiler.is_push t = 0%nat
    /\ t = [].
Proof.
  exact (proj2 (C7_dummy_is_inert Inputs.os_end_fails None (Some Inputs.bar) 1
                  [Profiler.Start; Profiler.Stop; Profiler.Start] (or_introl eq_refl))).
Defined.

(* ===================================================================== *)
(** ** Further properties of the allocation layer *)
(* ===================================================================== *)

(** The trace of [allocate] is that of [FaceWorks_Malloc]: one call. *)
Lemma allocate_calls (P : Alloc.Platform) (T : Alloc.ctype)
    (a : Alloc.FaceWorks_Allocator T) (n : Z) (hint : ptr) :
  fst (Alloc.allocate P a n hint)
  = [if is_set (Alloc.new_ (Alloc.m_allocator a))
     then Alloc.EvHookNew (Alloc.new_ (Alloc.m_allocator a)) (wrap_size_t (n * Alloc.sizeof T))
     else Alloc.EvOperatorNew (wrap_size_t (n * Alloc.sizeof T))].
Proof.
  unfold Alloc.allocate, Alloc.FaceWorks_Malloc, Alloc.extern, mbind, Alloc.M_bind.
  destruct (is_set (Alloc.new_ (Alloc.m_allocator a)));
    [destruct (Alloc.call_new P _ _) as [p|e] | destruct (Alloc.operator_new P _) as [p|e]];
    try done; by destruct (is_set p).
Qed.

(** X1: an allocator constructed from a null [pAllocator] uses the platform
    defaults only: [allocate] asks [operator new] for [n * sizeof(T)] bytes
    (modulo 2^64) and turns a null answer into [bad_alloc]; [deallocate] of a
    non-null pointer calls [operator delete] and returns. *)
Theorem X1_null_pAllocator_uses_platform_defaults
    (P : Alloc.Platform) (T : Alloc.ctype) (n : Z) (hint p : ptr) :
  p <> nullptr ->
  Alloc.allocate P (Alloc.FaceWorks_Allocator_ctor T None) n hint
  = ([Alloc.EvOperatorNew (wrap_size_t (n * Alloc.sizeof T))],
     match Alloc.operator_new P (wrap_size_t (n * Alloc.sizeof T)) with
     | Alloc.Returned q => if is_set q then Alloc.Returned q else Alloc.Threw Alloc.bad_alloc
     | Alloc.Threw e => Alloc.Threw e
     end)
  /\ Alloc.deallocate P (Alloc.FaceWorks_Allocator_ctor T None) p n
     = ([Alloc.EvOperatorDelete p], Alloc.Returned tt).
Proof.
  intros Hp. apply is_set_true in Hp. split.
  - apply injective_projections.
    + by rewrite allocate_calls.
    + change (snd ?m) with (Alloc.result m). by rewrite allocate_result.
  - unfold Alloc.deallocate, Alloc.FaceWorks_Free. cbn. by rewrite Hp.
Qed.

Lemma X1_witness :
  Alloc.allocate Inputs.good_platform (Alloc.FaceWorks_Allocator_ctor (Alloc.mk_ctype 8) None)
    3 nullptr
  = ([Alloc.EvOperatorNew 24], Alloc.Returned 8192)
  /\ Alloc.deallocate Inputs.good_platform
       (Alloc.FaceWorks_Allocator_ctor (Alloc.mk_ctype 8) None) 8192 3
     = ([Alloc.EvOperatorDelete 8192], Alloc.Returned tt).
Proof.
  exact (X1_null_pAllocator_uses_platform_defaults Inputs.good_platform (Alloc.mk_ctype 8)
           3 nullptr 8192 ltac:(unfold nullptr; lia)).
Defined.

(** X2: [allocate] adds nothing to what [FaceWorks_Malloc] does except the
    null check: it makes the same single external call, lets an exception of
    the hook or of [operator new] through unchanged, and returns a non-null
    pointer as it got it. *)
Theorem X2_allocate_passes_outcome_through
    (P : Alloc.Platform) (T : Alloc.ctype) (a : Alloc.FaceWorks_Allocator T)
    (n : Z) (hint : ptr) :
  let m := Alloc.FaceWorks_Malloc P (wrap_size_t (n * Alloc.sizeof T)) (Alloc.m_allocator a) in
  fst (Alloc.allocate P a n hint) = fst m
  /\ length (fst (Alloc.allocate P a n hint)) = 1%nat
  /\ (forall e, Alloc.result m = Alloc.Threw e ->
        Alloc.result (Alloc.allocate P a n hint) = Alloc.Threw e)
  /\ (forall p, p <> nullptr -> Alloc.result m = Alloc.Returned p ->
        Alloc.result (Alloc.allocate P a n hint) = Alloc.Returned p).
Proof.
  intros m. rewrite allocate_result. fold m. rewrite allocate_calls.
  repeat split.
  - subst m. unfold Alloc.FaceWorks_Malloc, Alloc.extern.
    by destruct (is_set (Alloc.new_ (Alloc.m_allocator a))).
  - by intros e ->.
  - intros p Hp ->. apply is_set_true in Hp. by rewrite Hp.
Qed.

Lemma X2_witness :
  Alloc.result (Alloc.allocate Inputs.throwing_platform
                  (Alloc.FaceWorks_Allocator_ctor (Alloc.mk_ctype 8) (Some Inputs.both_hooks))
                  3 nullptr)
  = Alloc.Threw (Alloc.foreign_exn 3)
  /\ Alloc.result (Alloc.allocate Inputs.good_platform
                     (Alloc.FaceWorks_Allocator_ctor (Alloc.mk_ctype 8) (Some Inputs.both_hooks))
                     3 nullptr)
     = Alloc.Returned 4096.
Proof.
  split.
  - exact (proj1 (proj2 (proj2 (X2_allocate_passes_outcome_through Inputs.throwing_platform
              (Alloc.mk_ctype 8)
              (Alloc.FaceWorks_Allocator_ctor (Alloc.mk_ctype 8) (Some Inputs.both_hooks))
              3 nullptr))) (Alloc.foreign_exn 3) eq_refl).
  - exact (proj2 (proj2 (proj2 (X2_allocate_passes_outcome_through Inputs.good_platform
              (Alloc.mk_ctype 8)
              (Alloc.FaceWorks_Allocator_ctor (Alloc.mk_ctype 8) (Some Inputs.both_hooks))
              3 nullptr))) 4096 ltac:(unfold nullptr; lia) eq_refl).
Defined.

(** X3: [allocate] does not guard the multiplication [n * sizeof(T)].  When
    the product does not fit 64 bits, the byte count that reaches the hook
    or [operator new] is the product reduced modulo 2^64, strictly less than
    what [n] elements need. *)
Theorem X3_allocate_size_overflow_wraps
    (P : Alloc.Platform) (T : Alloc.ctype) (a : Alloc.FaceWorks_Allocator T)
    (n : Z) (hint : ptr) :
  0 <= n < size_t_modulus ->
  size_t_modulus <= n * Alloc.sizeof T ->
  exists bytes,
    (fst (Alloc.allocate P a n hint)
     = [Alloc.EvHookNew (Alloc.new_ (Alloc.m_allocator a)) bytes]
     \/ fst (Alloc.allocate P a n hint) = [Alloc.EvOperatorNew bytes])
    /\ 0 <= bytes < size_t_modulus
    /\ bytes < n * Alloc.sizeof T
    /\ bytes = n * Alloc.sizeof T - size_t_modulus * (n * Alloc.sizeof T / size_t_modulus).
Proof.
  intros Hn Hov. exists (wrap_size_t (n * Alloc.sizeof T)).
  rewrite allocate_calls.
  assert (Hm : 0 < size_t_modulus) by (unfold size_t_modulus; lia).
  pose proof (Z.mod_pos_bound (n * Alloc.sizeof T) size_t_modulus Hm) as Hb.
  repeat split.
  - destruct (is_set _); [by left | by right].
  - apply Hb.
  - apply Hb.
  - unfold wrap_size_t in *. lia.
  - unfold wrap_size_t. rewrite Z.mod_eq by lia. done.
Qed.

Lemma X3_witness :
  exists bytes,
    (fst (Alloc.allocate Inputs.good_platform
            (Alloc.FaceWorks_Allocator_ctor (Alloc.mk_ctype 2) (Some Inputs.both_hooks))
            (2 ^ 63) nullptr)
     = [Alloc.EvHookNew 11 bytes]
     \/ fst (Alloc.allocate Inputs.good_platform
               (Alloc.FaceWorks_Allocator_ctor (Alloc.mk_ctype 2) (Some Inputs.both_hooks))
               (2 ^ 63) nullptr)
        = [Alloc.EvOperatorNew bytes])
    /\ 0 <= bytes < size_t_modulus
    /\ bytes < 2 ^ 63 * 2
    /\ bytes = 2 ^ 63 * 2 - size_t_modulus * (2 ^ 63 * 2 / size_t_modulus).
Proof.
  exact (X3_allocate_size_overflow_wraps Inputs.good_platform (Alloc.mk_ctype 2)
           (Alloc.FaceWorks_Allocator_ctor (Alloc.mk_ctype 2) (Some Inputs.both_hooks))
           (2 ^ 63) nullptr
           ltac:(unfold size_t_modulus; lia) ltac:(unfold size_t_modulus; simpl; lia)).
Defined.

(** X4: a block that [allocate] returns is released through the hook pair
    it came from, also when the release goes through a rebound copy of the
    allocator: [allocate] followed by [deallocate] on the result makes the
    allocation call and then exactly one release call, to the deallocate
    hook if it is set and to [operator delete] otherwise.  When [allocate]
    throws, nothing is released. *)
Theorem X4_allocate_then_deallocate
    (P : Alloc.Platform) (T T1 : Alloc.ctype) (a : Alloc.FaceWorks_Allocator T)
    (n : Z) (hint : ptr) :
  let a1 := Alloc.FaceWorks_Allocator_rebind T1 a in
  let d := Alloc.delete_ (Alloc.m_allocator a) in
  (forall p, Alloc.result (Alloc.allocate P a n hint) = Alloc.Returned p ->
     (x ← Alloc.allocate P a n hint; Alloc.deallocate P a1 x n)
     = (fst (Alloc.allocate P a n hint)
        ++ [if is_set d then Alloc.EvHookDelete d p else Alloc.EvOperatorDelete p],
        if is_set d then Alloc.call_delete P d p else Alloc.Returned tt))
  /\ (forall e, Alloc.result (Alloc.allocate P a n hint) = Alloc.Threw e ->
        (x ← Alloc.allocate P a n hint; Alloc.deallocate P a1 x n)
        = (fst (Alloc.allocate P a n hint), Alloc.Threw e)).
Proof.
  intros a1 d. split.
  - intros p Hp.
    pose proof (C := allocate_result P T a n hint). rewrite Hp in C.
    assert (Hset : is_set p = true).
    { destruct (Alloc.result (Alloc.FaceWorks_Malloc P _ _)) as [q|e]; [|done].
      destruct (is_set q) eqn:Hq; [|done]. by injection C as ->. }
    unfold Alloc.result in Hp.
    destruct (Alloc.allocate P a n hint) as [t r]. cbn [fst snd] in *. subst r.
    unfold mbind, Alloc.M_bind, Alloc.deallocate, Alloc.FaceWorks_Free, Alloc.extern.
    rewrite Hset. cbn [negb]. subst a1 d. cbn [Alloc.FaceWorks_Allocator_rebind Alloc.m_allocator].
    by destruct (is_set (Alloc.delete_ (Alloc.m_allocator a))).
  - intros e He. unfold Alloc.result in He.
    destruct (Alloc.allocate P a n hint) as [t r]. cbn [fst snd] in *. by subst r.
Qed.

Lemma X4_witness :
  (x ← Alloc.allocate Inputs.good_platform
         (Alloc.FaceWorks_Allocator_ctor (Alloc.mk_ctype 8) (Some Inputs.both_hooks)) 3 nullptr;
   Alloc.deallocate Inputs.good_platform
     (Alloc.FaceWorks_Allocator_rebind (Alloc.mk_ctype 24)
        (Alloc.FaceWorks_Allocator_ctor (Alloc.mk_ctype 8) (Some Inputs.both_hooks))) x 3)
  = ([Alloc.EvHookNew 11 24; Alloc.EvHookDelete 12 4096], Alloc.Returned tt).
Proof.
  exact (proj1 (X4_allocate_then_deallocate Inputs.good_platform (Alloc.mk_ctype 8)
                  (Alloc.mk_ctype 24)
                  (Alloc.FaceWorks_Allocator_ctor (Alloc.mk_ctype 8) (Some Inputs.both_hooks))
                  3 nullptr) 4096 eq_refl).
Defined.

(** X5: rebinding commutes with construction and composes.  An allocator
    rebound from one constructed from [pAllocator] is the allocator
    constructed from [pAllocator] at the new element type; two rebinds in a
    row equal one; and rebinding back to the original element type gives the
    original allocator. *)
Theorem X5_rebind_algebra
    (T T1 T2 : Alloc.ctype) (pAllocator : option Alloc.gfsdk_new_delete_t)
    (a : Alloc.FaceWorks_Allocator T) :
  Alloc.FaceWorks_Allocator_rebind T1 (Alloc.FaceWorks_Allocator_ctor T pAllocator)
  = Alloc.FaceWorks_Allocator_ctor T1 pAllocator
  /\ Alloc.FaceWorks_Allocator_rebind T2 (Alloc.FaceWorks_Allocator_rebind T1 a)
     = Alloc.FaceWorks_Allocator_rebind T2 a
  /\ Alloc.FaceWorks_Allocator_rebind T (Alloc.FaceWorks_Allocator_rebind T1 a) = a.
Proof.
  repeat split.
  - by destruct pAllocator.
  - by destruct a.
Qed.

(* ===================================================================== *)
(** ** Further properties of the profiler *)
(* ===================================================================== *)

Section CallProperties.
Import Profiler.
Variable os : OS.

(** One counter query, in closed form. *)
Lemma try_query_exact (which : field) (p : FaceWorks_Profiler) (w : World) :
  try_query_and_report_err os which p w
  = (match qpc os (queries w) with
     | QOk t => set_field which t p
     | QFail _ => p
     end,
     mk_world (S (queries w))
       (trace w
        ++ EvQueryPerformanceCounter which (qpc os (queries w))
           :: match qpc os (queries w) with
              | QOk _ => []
              | QFail err =>
                  if is_set (pErrorBlobOut p)
                  then [EvBlobPrintf (pErrorBlobOut p) (c_str (m_info_str p)) err]
                  else []
              end)).
Proof.
  unfold try_query_and_report_err, mbind, St_bind, QueryPerformanceCounter, mret,
    St_ret, emit.
  destruct (qpc os (queries w)) as [t|err]; [done|].
  destruct (is_set (pErrorBlobOut p)); cbn [queries trace]; [|done].
  by rewrite <- app_assoc.
Qed.

(** Without a [start()] among them, calls on an instance that has not
    started change nothing. *)
Lemma do_calls_unstarted (cs : list call) (p : FaceWorks_Profiler) (w : World) :
  m_did_start p = false -> has_start cs = false -> do_calls os cs p w = (p, w).
Proof.
  intros Hs. induction cs as [|c cs IH]; [done|].
  destruct c; cbn [has_start existsb orb]; [done|]. intros Hc.
  cbn [do_calls do_call]. unfold mbind, St_bind, stop. rewrite Hs. cbn [andb].
  unfold mret, St_ret. by apply IH.
Qed.

(** One call on an instance in any state: what stays fixed and what is
    added to the trace. *)
Lemma do_call_step (c : call) (p : FaceWorks_Profiler) (w : World) :
  exists evs,
    trace (snd (do_call os c p w)) = trace w ++ evs
    /\ m_info_str (fst (do_call os c p w)) = m_info_str p
    /\ pErrorBlobOut (fst (do_call os c p w)) = pErrorBlobOut p
    /\ m_freq (fst (do_call os c p w)) = m_freq p
    /\ m_is_dummy (fst (do_call os c p w)) = m_is_dummy p
    /\ m_did_start (fst (do_call os c p w))
       = (m_did_start p
          || match c with Start => negb (m_is_dummy p) | Stop => false end)
    /\ (m_did_start p = true -> m_begin (fst (do_call os c p w)) = m_begin p)
    /\ Forall (carries (pErrorBlobOut p) (c_str (m_info_str p))) evs
    /\ count_events is_begin_capture evs
       = (match c with
          | Start => if negb (m_did_start p) && negb (m_is_dummy p) then 1 else 0
          | Stop => 0
          end)%nat
    /\ count_events is_diag evs
       = (if is_set (pErrorBlobOut p) then count_events is_failed_query evs else 0)%nat
    /\ count_events is_push evs = 0%nat.
Proof.
  destruct c; unfold do_call, start, stop;
    destruct (m_did_start p) eqn:Hs, (m_is_dummy p) eqn:Hd; cbn [negb andb orb];
    try (exists []; unfold mret, St_ret; cbn [fst snd]; rewrite app_nil_r;
         repeat split; try done; by destruct (is_set (pErrorBlobOut p))).
  - unfold mbind, St_bind. rewrite try_query_exact. unfold mret, St_ret.
    cbn [fst snd trace]. eexists. split; [reflexivity|].
    destruct (qpc os (queries w)) as [t|err]; destruct (is_set (pErrorBlobOut p)) eqn:Hb;
      cbn; rewrite ?Hb; repeat split; try done; repeat constructor.
  - rewrite try_query_exact. cbn [fst snd trace]. eexists. split; [reflexivity|].
    destruct (qpc os (queries w)) as [t|err]; destruct (is_set (pErrorBlobOut p)) eqn:Hb;
      cbn; rewrite ?Hb; repeat split; try done; repeat constructor.
Qed.

(** Any number of calls on an instance in any state. *)
Lemma do_calls_step (cs : list call) :
  forall (p : FaceWorks_Profiler) (w : World),
    exists evs,
      trace (snd (do_calls os cs p w)) = trace w ++ evs
      /\ m_info_str (fst (do_calls os cs p w)) = m_info_str p
      /\ pErrorBlobOut (fst (do_calls os cs p w)) = pErrorBlobOut p
      /\ m_freq (fst (do_calls os cs p w)) = m_freq p
      /\ m_is_dummy (fst (do_calls os cs p w)) = m_is_dummy p
      /\ m_did_start (fst (do_calls os cs p w))
         = (m_did_start p || (has_start cs && negb (m_is_dummy p)))
      /\ (m_did_start p = true -> m_begin (fst (do_calls os cs p w)) = m_begin p)
      /\ Forall (carries (pErrorBlobOut p) (c_str (m_info_str p))) evs
      /\ count_events is_begin_capture evs
         = (if negb (m_did_start p) && negb (m_is_dummy p) && has_start cs then 1 else 0)%nat
      /\ count_events is_diag evs
         = (if is_set (pErrorBlobOut p) then count_events is_failed_query evs else 0)%nat
      /\ count_events is_push evs = 0%nat.
Proof.
  induction cs as [|c cs IH]; intros p w.
  - exists []. cbn [do_calls]. unfold mret, St_ret; cbn [fst snd has_start existsb].
    rewrite app_nil_r, andb_false_r, orb_false_r.
    repeat split; try done. by destruct (is_set (pErrorBlobOut p)).
  - cbn [do_calls]. unfold mbind, St_bind.
    destruct (do_call_step c p w) as (e1 & T1 & I1 & B1 & F1 & D1 & S1 & M1 & L1 & N1 & G1 & P1).
    destruct (do_call os c p w) as [p1 w1]. cbn [fst snd] in *.
    destruct (IH p1 w1) as (e2 & T2 & I2 & B2 & F2 & D2 & S2 & M2 & L2 & N2 & G2 & P2).
    exists (e1 ++ e2).
    rewrite T2, T1, <- app_assoc, !count_events_app, N1, N2, G1, G2, P1, P2, I2, I1, B2, B1, F2, F1,
      D2, D1, S2, S1 in *.
    repeat split.
    + unfold has_start; cbn [existsb]; fold (has_start cs).
      destruct c, (m_did_start p), (m_is_dummy p), (has_start cs); reflexivity.
    + intros Hs. rewrite M2, M1; [done|done|]. rewrite Hs. done.
    + apply Forall_app_2; done.
    + unfold has_start; cbn [existsb]; fold (has_start cs).
      destruct c, (m_did_start p), (m_is_dummy p), (has_start cs); reflexivity.
    + by destruct (is_set (pErrorBlobOut p)).
Qed.

(** The destructor of an instance in any state. *)
Lemma dtor_step (p : FaceWorks_Profiler) (w : World) :
  exists evs,
    trace (snd (FaceWorks_Profiler_dtor os p w)) = trace w ++ evs
    /\ Forall (carries (pErrorBlobOut p) (c_str (m_info_str p))) evs
    /\ count_events is_begin_capture evs = 0%nat
    /\ count_events is_push evs = (if m_did_start p then 1 else 0)%nat
    /\ count_events is_diag evs
       = (if is_set (pErrorBlobOut p) then count_events is_failed_query evs else 0)%nat.
Proof.
  unfold FaceWorks_Profiler_dtor, stop.
  destruct (m_did_start p) eqn:Hs; cbn [andb].
  - destruct (m_is_dummy p) eqn:Hd; cbn [negb]; unfold mbind, St_bind, emit.
    + unfold mret, St_ret. cbn [snd trace]. eexists. split; [reflexivity|].
      cbn. repeat split; [by repeat constructor|]. by destruct (is_set (pErrorBlobOut p)).
    + rewrite try_query_exact. cbn [snd trace]. rewrite <- app_assoc.
      eexists. split; [reflexivity|].
      destruct (qpc os (queries w)) as [t|err];
        [destruct (is_set (pErrorBlobOut p))
        |destruct (is_set (pErrorBlobOut p)) eqn:Hb];
        cbn; repeat split; try done; repeat constructor.
  - exists []. unfold mret, St_ret; cbn [snd]. rewrite app_nil_r.
    repeat split; try done. by destruct (is_set (pErrorBlobOut p)).
Qed.
End CallProperties.

Section LifetimeProperties.
Import Profiler.
Variable os : OS.

Lemma ctor_label_named (name fun_ : list ascii) (pBlob : ptr) :
  ctor_label os (Some name) (Some fun_) pBlob
  = Some (prefix ++ take 64 (c_str name) ++ ["|"%char] ++ take 64 (c_str fun_)).
Proof.
  unfold ctor_label. rewrite ctor_named.
  destruct (qpf os); cbn [mbind option_bind m_info_str]; by rewrite built_c_str.
Qed.

Lemma is_named_false (name fun_ : option (list ascii)) :
  is_named name fun_ = false -> name = None \/ fun_ = None.
Proof. destruct name, fun_; cbn; intros; try done; auto. Qed.

(** An instance with an absent string does nothing in its lifetime. *)
Lemma lifetime_unnamed (name fun_ : option (list ascii)) (pBlob : ptr) (cs : list call) :
  is_named name fun_ = false -> lifetime os name fun_ pBlob cs = Some [].
Proof.
  intros H%is_named_false. unfold lifetime. rewrite (ctor_dummy os name fun_ pBlob _ H).
  cbn [mbind option_bind]. unfold mbind at 1, St_bind.
  by rewrite do_calls_dummy.
Qed.

(** The constructed instance and world of a named construction. *)
Lemma ctor_named_state (name fun_ : list ascii) (pBlob : ptr) :
  exists p0 w0,
    FaceWorks_Profiler_ctor os (Some name) (Some fun_) pBlob init_world = Some (p0, w0)
    /\ m_is_dummy p0 = false /\ m_did_start p0 = false
    /\ pErrorBlobOut p0 = pBlob /\ m_info_str p0 = built name fun_
    /\ Forall (carries pBlob (c_str (built name fun_))) (trace w0)
    /\ count_events is_capture (trace w0) = 0%nat
    /\ count_events is_begin_capture (trace w0) = 0%nat
    /\ count_events is_push (trace w0) = 0%nat
    /\ count_events is_diag (trace w0)
       = (if is_set pBlob then count_events is_failed_query (trace w0) else 0)%nat.
Proof.
  rewrite ctor_named.
  destruct (qpf os) as [f|err]; [|destruct (is_set pBlob) eqn:Hb];
    do 2 eexists; (split; [reflexivity|]);
    cbn [m_is_dummy m_did_start pErrorBlobOut m_info_str trace init_world app];
    rewrite ?app_nil_r; repeat split; try done; try (by destruct (is_set pBlob));
    repeat constructor.
Qed.

(** The whole lifetime of a named instance, counted. *)
Lemma lifetime_named (name fun_ : list ascii) (pBlob : ptr) (cs : list call) :
  exists t,
    lifetime os (Some name) (Some fun_) pBlob cs = Some t
    /\ count_events is_push t = (if has_start cs then 1 else 0)%nat
    /\ count_events is_begin_capture t = (if has_start cs then 1 else 0)%nat
    /\ count_events is_diag t
       = (if is_set pBlob then count_events is_failed_query t else 0)%nat
    /\ Forall (carries pBlob (prefix ++ take 64 (c_str name) ++ ["|"%char]
                                ++ take 64 (c_str fun_))) t.
Proof.
  unfold lifetime.
  destruct (ctor_named_state name fun_ pBlob)
    as (p0 & w0 & -> & D0 & S0 & B0 & I0 & L0 & _ & N0 & P0 & G0).
  cbn [mbind option_bind]. unfold mbind at 1, St_bind.
  destruct (do_calls_step os cs p0 w0)
    as (e1 & T1 & I1 & B1 & _ & _ & S1 & _ & L1 & N1 & G1 & P1).
  destruct (do_calls os cs p0 w0) as [p1 w1]. cbn [fst snd] in *.
  destruct (dtor_step os p1 w1) as (e2 & T2 & L2 & N2 & P2 & G2).
  eexists. split; [reflexivity|].
  rewrite T2, T1, !count_events_app, N0, N1, N2, P0, P1, P2, G0, G1, G2, S1, S0, D0,
    B1, B0, <- built_c_str.
  rewrite I1, B1, I0, B0 in L2. rewrite I0, B0 in L1.
  repeat split.
  - by destruct (has_start cs).
  - by destruct (has_start cs).
  - destruct (is_set pBlob); lia.
  - by repeat apply Forall_app_2.
Qed.
End LifetimeProperties.

(** X6: when neither the operation name nor the calling-context identifier
    is longer than 64 bytes, nothing is cut: the label is the prefix, the
    name, the separator and the context. *)
Theorem X6_short_strings_are_kept_whole
    (os : Profiler.OS) (name fun_ : list ascii) (pBlob : ptr) :
  (Profiler.strlen_nat name <= 64)%nat ->
  (Profiler.strlen_nat fun_ <= 64)%nat ->
  Profiler.ctor_label os (Some name) (Some fun_) pBlob
  = Some (Profiler.prefix ++ Profiler.c_str name ++ ["|"%char] ++ Profiler.c_str fun_).
Proof.
  intros Hn Hf. rewrite ctor_label_named.
  by rewrite !take_ge by (rewrite length_c_str; lia).
Qed.

Lemma X6_witness :
  Profiler.ctor_label Inputs.os_ok (Some Inputs.foo) (Some Inputs.bar) 1
  = Some (Profiler.prefix ++ Profiler.c_str Inputs.foo ++ ["|"%char]
            ++ Profiler.c_str Inputs.bar).
Proof.
  exact (X6_short_strings_are_kept_whole Inputs.os_ok Inputs.foo Inputs.bar 1
           ltac:(vm_compute; lia) ltac:(vm_compute; lia)).
Defined.


(** X8: the label sees only the first 64 bytes of each string.  Two names
    that agree on their first 64 bytes, with contexts that agree on their
    first 64 bytes, get the same label. *)
Theorem X8_long_names_collide
    (os : Profiler.OS) (name name' fun_ fun' : list ascii) (pBlob pBlob' : ptr) :
  take 64 (Profiler.c_str name) = take 64 (Profiler.c_str name') ->
  take 64 (Profiler.c_str fun_) = take 64 (Profiler.c_str fun') ->
  Profiler.ctor_label os (Some name) (Some fun_) pBlob
  = Profiler.ctor_label os (Some name') (Some fun') pBlob'.
Proof. intros Hn Hf. rewrite !ctor_label_named. by rewrite Hn, Hf. Qed.

Lemma X8_witness :
  Profiler.ctor_label Inputs.os_ok (Some Inputs.name100) (Some Inputs.bar) 1
  = Profiler.ctor_label Inputs.os_ok (Some Inputs.name101) (Some Inputs.bar) 1.
Proof.
  exact (X8_long_names_collide Inputs.os_ok Inputs.name100 Inputs.name101
           Inputs.bar Inputs.bar 1 1 eq_refl eq_refl).
Defined.

(** X9: construction never starts the timer.  An instance on which
    [start()] is never called, named or not and whatever [stop()] calls are
    made, does in its whole lifetime only what its constructor did: it
    queries no timestamp and pushes no sample. *)
Theorem X9_without_start_nothing_is_timed
    (os : Profiler.OS) (name fun_ : option (list ascii)) (pBlob : ptr)
    (cs : list Profiler.call) :
  Profiler.has_start cs = false ->
  exists t,
    Profiler.lifetime os name fun_ pBlob cs = Some t
    /\ Profiler.scope_trace os name fun_ pBlob [] = Some t
    /\ Profiler.count_events Profiler.is_capture t = 0%nat
    /\ Profiler.count_events Profiler.is_push t = 0%nat.
Proof.
  intros Hc. destruct (Profiler.is_named name fun_) eqn:Hn.
  - destruct name as [name|], fun_ as [fun_|]; try done.
    unfold Profiler.lifetime, Profiler.scope_trace.
    destruct (ctor_named_state os name fun_ pBlob)
      as (p0 & w0 & -> & D0 & S0 & _ & _ & _ & C0 & _ & P0 & _).
    cbn [mbind option_bind Profiler.do_calls]. unfold mbind at 1, Profiler.St_bind.
    rewrite do_calls_unstarted by done.
    unfold Profiler.FaceWorks_Profiler_dtor. rewrite S0.
    by exists (Profiler.trace w0).
  - exists []. rewrite lifetime_unnamed by done.
    unfold Profiler.scope_trace.
    rewrite (ctor_dummy os name fun_ pBlob _ (is_named_false _ _ Hn)).
    done.
Qed.

Lemma X9_witness :
  exists t,
    Profiler.lifetime Inputs.os_ok (Some Inputs.foo) (Some Inputs.bar) 1
      [Profiler.Stop; Profiler.Stop] = Some t
    /\ Profiler.scope_trace Inputs.os_ok (Some Inputs.foo) (Some Inputs.bar) 1 [] = Some t
    /\ Profiler.count_events Profiler.is_capture t = 0%nat
    /\ Profiler.count_events Profiler.is_push t = 0%nat.
Proof.
  exact (X9_without_start_nothing_is_timed Inputs.os_ok (Some Inputs.foo) (Some Inputs.bar) 1
           [Profiler.Stop; Profiler.Stop] eq_refl).
Defined.

(** X10: an instance pushes at most one sample in its lifetime, and exactly
    one when it is named and [start()] was called at least once, whether or
    not the queries succeed and however many [start()] and [stop()] calls
    are made. *)
Theorem X10_one_sample_per_started_instance
    (os : Profiler.OS) (name fun_ : option (list ascii)) (pBlob : ptr)
    (cs : list Profiler.call) :
  exists t,
    Profiler.lifetime os name fun_ pBlob cs = Some t
    /\ Profiler.count_events Profiler.is_push t
       = (if Profiler.is_named name fun_ && Profiler.has_start cs then 1 else 0)%nat.
Proof.
  destruct (Profiler.is_named name fun_) eqn:Hn.
  - destruct name as [name|], fun_ as [fun_|]; try done.
    destruct (lifetime_named os name fun_ pBlob cs) as (t & Ht & P & _).
    by exists t.
  - exists []. by rewrite lifetime_unnamed.
Qed.

(** X11: the begin timestamp is queried at most once per instance: once
    when the instance is named and [start()] is called, however often, and
    never otherwise. *)
Theorem X11_begin_is_captured_once
    (os : Profiler.OS) (name fun_ : option (list ascii)) (pBlob : ptr)
    (cs : list Profiler.call) :
  exists t,
    Profiler.lifetime os name fun_ pBlob cs = Some t
    /\ Profiler.count_events Profiler.is_begin_capture t
       = (if Profiler.is_named name fun_ && Profiler.has_start cs then 1 else 0)%nat.
Proof.
  destruct (Profiler.is_named name fun_) eqn:Hn.
  - destruct name as [name|], fun_ as [fun_|]; try done.
    destruct (lifetime_named os name fun_ pBlob cs) as (t & Ht & _ & N & _).
    by exists t.
  - exists []. by rewrite lifetime_unnamed.
Qed.

(** X12: no sequence of [start()] and [stop()] calls, on an instance in any
    state, changes the label, the error blob pointer, the frequency or the
    dummy flag. *)
Theorem X12_calls_keep_label_blob_frequency_and_dummy_flag
    (os : Profiler.OS) (p : Profiler.FaceWorks_Profiler) (w : Profiler.World)
    (cs : list Profiler.call) :
  Profiler.m_info_str (fst (Profiler.do_calls os cs p w)) = Profiler.m_info_str p
  /\ Profiler.pErrorBlobOut (fst (Profiler.do_calls os cs p w)) = Profiler.pErrorBlobOut p
  /\ Profiler.m_freq (fst (Profiler.do_calls os cs p w)) = Profiler.m_freq p
  /\ Profiler.m_is_dummy (fst (Profiler.do_calls os cs p w)) = Profiler.m_is_dummy p.
Proof.
  by destruct (do_calls_step os cs p w) as (e & _ & I & B & F & D & _).
Qed.

(** X13: [m_did_start] is a latch.  Once it is set, any further [start()]
    and [stop()] calls leave it set, leave [m_begin] as it is, and do not
    query the begin timestamp again. *)
Theorem X13_started_stays_started
    (os : Profiler.OS) (p : Profiler.FaceWorks_Profiler) (w : Profiler.World)
    (cs : list Profiler.call) :
  Profiler.m_did_start p = true ->
  Profiler.m_did_start (fst (Profiler.do_calls os cs p w)) = true
  /\ Profiler.m_begin (fst (Profiler.do_calls os cs p w)) = Profiler.m_begin p
  /\ exists evs,
       Profiler.trace (snd (Profiler.do_calls os cs p w)) = Profiler.trace w ++ evs
       /\ Profiler.count_events Profiler.is_begin_capture evs = 0%nat.
Proof.
  intros Hs.
  destruct (do_calls_step os cs p w) as (e & T & _ & _ & _ & _ & S & M & _ & N & _).
  rewrite S, Hs, (M Hs). repeat split. exists e. by rewrite N, Hs.
Qed.

Lemma X13_witness :
  Profiler.m_did_start
    (fst (Profiler.do_calls Inputs.os_ok [Profiler.Stop; Profiler.Start; Profiler.Stop]
            Inputs.p_started Inputs.w_started)) = true
  /\ Profiler.m_begin
       (fst (Profiler.do_calls Inputs.os_ok [Profiler.Stop; Profiler.Start; Profiler.Stop]
               Inputs.p_started Inputs.w_started)) = Profiler.m_begin Inputs.p_started
  /\ exists evs,
       Profiler.trace
         (snd (Profiler.do_calls Inputs.os_ok [Profiler.Stop; Profiler.Start; Profiler.Stop]
                 Inputs.p_started Inputs.w_started))
       = Profiler.trace Inputs.w_started ++ evs
       /\ Profiler.count_events Profiler.is_begin_capture evs = 0%nat.
Proof.
  exact (X13_started_stays_started Inputs.os_ok Inputs.p_started Inputs.w_started
           [Profiler.Stop; Profiler.Start; Profiler.Stop] eq_refl).
Defined.

(** X14: the ordinary use.  A named instance with one [start()] and all
    three queries succeeding makes, in order, the frequency query, the begin
    query at [start()], the end query in the destructor and one call of
    [ProfilerPushTime] with the label, the tick difference end minus begin
    (as a 64-bit signed value) and the frequency; nothing is printed. *)
Theorem X14_start_then_scope_exit
    (os : Profiler.OS) (name fun_ : list ascii) (pBlob : ptr) (f t0 t1 : Z) :
  Profiler.qpf os = Profiler.QOk f ->
  Profiler.qpc os 0 = Profiler.QOk t0 ->
  Profiler.qpc os 1 = Profiler.QOk t1 ->
  Profiler.lifetime os (Some name) (Some fun_) pBlob [Profiler.Start]
  = Some [Profiler.EvQueryPerformanceFrequency (Profiler.QOk f);
          Profiler.EvQueryPerformanceCounter Profiler.F_begin (Profiler.QOk t0);
          Profiler.EvQueryPerformanceCounter Profiler.F_end (Profiler.QOk t1);
          Profiler.EvProfilerPushTime
            (Profiler.prefix ++ take 64 (Profiler.c_str name) ++ ["|"%char]
               ++ take 64 (Profiler.c_str fun_))
            (wrap_i64 (t1 - t0)) f].
Proof.
  intros Hf H0 H1. unfold Profiler.lifetime. rewrite ctor_named, Hf.
  rewrite <- built_c_str. generalize (Profiler.built name fun_) as info. intros info.
  cbn [mbind option_bind Profiler.do_calls Profiler.do_call].
  unfold Profiler.start. cbn [Profiler.m_did_start Profiler.m_is_dummy negb andb].
  unfold mbind, Profiler.St_bind, mret, Profiler.St_ret.
  rewrite try_query_exact. cbn [Profiler.queries Profiler.trace Profiler.init_world].
  rewrite H0.
  unfold Profiler.FaceWorks_Profiler_dtor, Profiler.stop, mbind, Profiler.St_bind.
  cbn [Profiler.set_field Profiler.set_m_begin Profiler.set_m_did_start
       Profiler.m_did_start Profiler.m_is_dummy Profiler.m_begin Profiler.m_end
       Profiler.m_freq Profiler.m_info_str Profiler.pErrorBlobOut negb andb].
  rewrite try_query_exact. cbn [Profiler.queries Profiler.trace]. rewrite H1.
  by cbn.
Qed.

Lemma X14_witness :
  Profiler.lifetime Inputs.os_ok (Some Inputs.foo) (Some Inputs.bar) 1 [Profiler.Start]
  = Some [Profiler.EvQueryPerformanceFrequency (Profiler.QOk 1000);
          Profiler.EvQueryPerformanceCounter Profiler.F_begin (Profiler.QOk 5);
          Profiler.EvQueryPerformanceCounter Profiler.F_end (Profiler.QOk 15);
          Profiler.EvProfilerPushTime
            (Profiler.prefix ++ take 64 (Profiler.c_str Inputs.foo) ++ ["|"%char]
               ++ take 64 (Profiler.c_str Inputs.bar))
            (wrap_i64 (15 - 5)) 1000].
Proof.
  exact (X14_start_then_scope_exit Inputs.os_ok Inputs.foo Inputs.bar 1 1000 5 15
           eq_refl eq_refl eq_refl).
Defined.

(** X15: diagnostics are printed for failed queries only, one each, and
    only when an error blob was supplied.  Over the lifetime of any
    instance the number of [BlobPrintf] calls is the number of failed
    frequency and counter queries if [pBlob] is non-null, and zero if it is
    null. *)
Theorem X15_one_diagnostic_per_failed_query
    (os : Profiler.OS) (name fun_ : option (list ascii)) (pBlob : ptr)
    (cs : list Profiler.call) :
  exists t,
    Profiler.lifetime os name fun_ pBlob cs = Some t
    /\ Profiler.count_events Profiler.is_diag t
       = (if is_set pBlob then Profiler.count_events Profiler.is_failed_query t else 0)%nat.
Proof.
  destruct (Profiler.is_named name fun_) eqn:Hn.
  - destruct name as [name|], fun_ as [fun_|]; try done.
    destruct (lifetime_named os name fun_ pBlob cs) as (t & Ht & _ & _ & G & _).
    by exists t.
  - exists []. rewrite lifetime_unnamed by done. split; [done|].
    by destruct (is_set pBlob).
Qed.

(** X16: everything a named instance reports carries the label built at
    construction: every diagnostic goes to the blob given to the constructor
    and quotes that label, and the sample is pushed under that label. *)
Theorem X16_reports_carry_the_constructed_label
    (os : Profiler.OS) (name fun_ : list ascii) (pBlob : ptr) (cs : list Profiler.call) :
  exists t,
    Profiler.lifetime os (Some name) (Some fun_) pBlob cs = Some t
    /\ Forall (Profiler.carries pBlob
                 (Profiler.prefix ++ take 64 (Profiler.c_str name) ++ ["|"%char]
                    ++ take 64 (Profiler.c_str fun_))) t.
Proof.
  destruct (lifetime_named os name fun_ pBlob cs) as (t & Ht & _ & _ & _ & L).
  by exists t.
Qed.

(** X17: [DeclFaceWorksProfiler] without [GFSDK_FACEWORKS_INTERNAL_PROFILING]
    declares an instance that makes no external call in its lifetime,
    whatever identifier, function and error blob are in scope and whatever
    calls are made; with the flag it declares a named instance, which pushes
    one sample exactly when [start()] is called. *)
Theorem X17_profiling_switch
    (os : Profiler.OS) (name function : list ascii) (pErrorBlobOut : ptr)
    (cs : list Profiler.call) :
  Profiler.decl_lifetime os false name function pErrorBlobOut cs = Some []
  /\ Profiler.decl_lifetime os true name function pErrorBlobOut cs
     = Profiler.lifetime os (Some name) (Some function) pErrorBlobOut cs
  /\ exists t,
       Profiler.decl_lifetime os true name function pErrorBlobOut cs = Some t
       /\ Profiler.count_events Profiler.is_push t
          = (if Profiler.has_start cs then 1 else 0)%nat.
Proof.
  split; [|split].
  - exact (lifetime_unnamed os None None nullptr cs eq_refl).
  - reflexivity.
  - destruct (lifetime_named os name function pErrorBlobOut cs) as (t & Ht & P & _).
    by exists t.
Qed.

(** On a started live instance every [stop()] costs one counter query and a
    [start()] costs none. *)
Lemma do_calls_started_queries (os : Profiler.OS) (cs : list Profiler.call) :
  forall (p : Profiler.FaceWorks_Profiler) (w : Profiler.World),
    Profiler.m_did_start p = true ->
    Profiler.m_is_dummy p = false ->
    Profiler.queries (snd (Profiler.do_calls os cs p w))
    = (Profiler.queries w + Profiler.count_stops cs)%nat.
Proof.
  induction cs as [|c cs IH]; intros p w Hs Hd.
  - cbn. lia.
  - cbn [Profiler.do_calls]. unfold mbind, Profiler.St_bind.
    destruct (do_call_step os c p w) as (e & _ & _ & _ & _ & D & S & _).
    assert (Hq : Profiler.queries (snd (Profiler.do_call os c p w))
                 = (Profiler.queries w
                    + match c with Profiler.Start => 0 | Profiler.Stop => 1 end)%nat).
    { destruct c; unfold Profiler.do_call, Profiler.start, Profiler.stop;
        rewrite Hs, Hd; cbn [negb andb].
      - cbn. lia.
      - rewrite try_query_exact. cbn. lia. }
    destruct (Profiler.do_call os c p w) as [p1 w1]. cbn [fst snd] in *.
    rewrite IH, Hq by (rewrite ?S, ?D, ?Hs, ?Hd; done).
    destruct c; cbn [Profiler.count_stops]; lia.
Qed.

(** X18: the sample measures from the first [start()] to the destructor.
    Explicit [stop()] calls do not freeze the measurement: whatever calls
    follow the first [start()], the destructor queries the end timestamp
    afresh, and when that query and the begin query succeed the last thing
    the instance does is push their difference. *)
Theorem X18_sample_spans_start_to_destruction
    (os : Profiler.OS) (name fun_ : list ascii) (pBlob : ptr)
    (cs : list Profiler.call) (f t0 t1 : Z) :
  Profiler.qpf os = Profiler.QOk f ->
  Profiler.qpc os 0 = Profiler.QOk t0 ->
  Profiler.qpc os (S (Profiler.count_stops cs)) = Profiler.QOk t1 ->
  exists t,
    Profiler.lifetime os (Some name) (Some fun_) pBlob (Profiler.Start :: cs)
    = Some (t ++ [Profiler.EvQueryPerformanceCounter Profiler.F_end (Profiler.QOk t1);
                  Profiler.EvProfilerPushTime
                    (Profiler.prefix ++ take 64 (Profiler.c_str name) ++ ["|"%char]
                       ++ take 64 (Profiler.c_str fun_))
                    (wrap_i64 (t1 - t0)) f]).
Proof.
  intros Hf H0 H1. unfold Profiler.lifetime. rewrite ctor_named, Hf.
  rewrite <- built_c_str. generalize (Profiler.built name fun_) as info. intros info.
  cbn [mbind option_bind Profiler.do_calls Profiler.do_call].
  unfold Profiler.start. cbn [Profiler.m_did_start Profiler.m_is_dummy negb andb].
  unfold mbind at 1 2 3, Profiler.St_bind, mret, Profiler.St_ret.
  rewrite try_query_exact. cbn [Profiler.queries Profiler.trace Profiler.init_world].
  rewrite H0. cbn [Profiler.set_field].
  set (p1 := Profiler.set_m_did_start true _). set (w1 := Profiler.mk_world 1 _).
  destruct (do_calls_step os cs p1 w1) as (e & T & I & B & F & D & S & M & _).
  pose proof (do_calls_started_queries os cs p1 w1 eq_refl eq_refl) as Q.
  destruct (Profiler.do_calls os cs p1 w1) as [p2 w2]. cbn [fst snd] in *.
  specialize (M eq_refl).
  unfold Profiler.FaceWorks_Profiler_dtor, Profiler.stop. rewrite S, D.
  cbn [Profiler.m_did_start Profiler.m_is_dummy p1 Profiler.set_m_did_start
       Profiler.set_m_begin orb negb andb].
  unfold mbind, Profiler.St_bind, Profiler.emit.
  rewrite try_query_exact, Q. cbn [Profiler.queries w1 Nat.add]. rewrite H1.
  cbn [snd Profiler.trace Profiler.set_field Profiler.set_m_end Profiler.m_info_str
       Profiler.m_end Profiler.m_begin Profiler.m_freq].
  rewrite T, I, F, M. cbn [p1 Profiler.set_m_did_start Profiler.set_m_begin
       Profiler.m_info_str Profiler.m_begin Profiler.m_freq].
  exists (Profiler.trace w1 ++ e). by rewrite <- (app_assoc _ [_] [_]).
Qed.

Lemma X18_witness :
  exists t,
    Profiler.lifetime Inputs.os_ok (Some Inputs.foo) (Some Inputs.bar) 1
      (Profiler.Start :: [Profiler.Stop; Profiler.Stop])
    = Some (t ++ [Profiler.EvQueryPerformanceCounter Profiler.F_end (Profiler.QOk 35);
                  Profiler.EvProfilerPushTime
                    (Profiler.prefix ++ take 64 (Profiler.c_str Inputs.foo) ++ ["|"%char]
                       ++ take 64 (Profiler.c_str Inputs.bar))
                    (wrap_i64 (35 - 5)) 1000]).
Proof.
  exact (X18_sample_spans_start_to_destruction Inputs.os_ok Inputs.foo Inputs.bar 1
           [Profiler.Stop; Profiler.Stop] 1000 5 35 eq_refl eq_refl eq_refl).
Defined.
